(** * String analytics service: query interpretation and filtering

    A shallow embedding of the filtering engine of the string analytics
    service ([api.py], [schema.py], [utils.py]) together with the properties
    its specification states about it.

    Text.  A Python [str] is modelled as a Rocq [string]; a character is a
    code point below 256 (the Latin-1 range), and the built-ins below
    ([str.isspace], [str.lower], [str.casefold], the classes [\s], [\d] and
    [[a-z]] of [re]) are transcribed for exactly that range.  Code points
    from 256 on are outside the model.

    Numbers.  A Python [int] is unbounded: it is modelled as [Z].  The
    conversion of a text by [int] is capped at 4300 digits, the default of
    the interpreter; beyond, it raises [ValueError]. *)

From Stdlib Require Import String Ascii List ZArith NArith Bool Lia.
Import ListNotations.

Local Open Scope string_scope.
Local Open Scope list_scope.

(** ** Python built-ins on [str] *)

Module Py.

Definition ord (c : ascii) : N := N_of_ascii c.

Definition between (lo hi : N) (c : ascii) : bool :=
  ((lo <=? ord c) && (ord c <=? hi))%N.

(** [str.isspace] on one character; also the class [\s] of [re] and the
    separators of [str.strip] and [str.split]: TAB..CR, FS..US, space,
    NEL and NBSP. *)
Definition isspace (c : ascii) : bool :=
  between 9 13 c || between 28 32 c || (ord c =? 133)%N || (ord c =? 160)%N.

(** The class [\d] of [re]: the decimal digits. *)
Definition isdecimal (c : ascii) : bool := between 48 57 c.

(** The class [[a-z]] of [re]. *)
Definition is_a_z (c : ascii) : bool := between 97 122 c.

(** [str.lower] on one character: A-Z, and the Latin-1 capitals
    0xC0-0xDE except the multiplication sign 0xD7, move up by 32. *)
Definition lower_char (c : ascii) : ascii :=
  if between 65 90 c || (between 192 222 c && negb (ord c =? 215)%N)
  then ascii_of_N (ord c + 32)
  else c.

Fixpoint lower (s : string) : string :=
  match s with
  | EmptyString => EmptyString
  | String c r => String (lower_char c) (lower r)
  end.

(** [str.casefold]: as [lower], and the sharp s (0xDF) becomes "ss".  The
    micro sign 0xB5 folds to U+03BC, which no other character of the range
    folds to; it is left in place, which keeps every comparison between
    folded texts. *)
Fixpoint casefold (s : string) : string :=
  match s with
  | EmptyString => EmptyString
  | String c r =>
      if (ord c =? 223)%N then String "s" (String "s" (casefold r))
      else String (lower_char c) (casefold r)
  end.

Fixpoint lstrip (s : string) : string :=
  match s with
  | EmptyString => EmptyString
  | String c r => if isspace c then lstrip r else s
  end.

Fixpoint rstrip (s : string) : string :=
  match s with
  | EmptyString => EmptyString
  | String c r =>
      match rstrip r with
      | EmptyString => if isspace c then EmptyString else String c EmptyString
      | r' => String c r'
      end
  end.

(** [s.strip()] *)
Definition strip (s : string) : string := rstrip (lstrip s).

(** [s[::-1]] *)
Fixpoint reversed (s : string) : string :=
  match s with
  | EmptyString => EmptyString
  | String c r => reversed r ++ String c EmptyString
  end.

(** What is left of [s] after the prefix [p], when [s] starts with it. *)
Fixpoint after_prefix (p s : string) : option string :=
  match p, s with
  | EmptyString, _ => Some s
  | String a p', String b s' =>
      if Ascii.eqb a b then after_prefix p' s' else None
  | String _ _, EmptyString => None
  end.

Definition startswith (p s : string) : bool :=
  match after_prefix p s with Some _ => true | None => false end.

(** [sub in s] *)
Fixpoint contains (sub s : string) : bool :=
  startswith sub s
  || match s with
     | EmptyString => false
     | String _ r => contains sub r
     end.

Definition digit_value (c : ascii) : Z := Z.of_N (ord c - 48).

Fixpoint int_from (acc : Z) (s : string) : Z :=
  match s with
  | EmptyString => acc
  | String c r => int_from (10 * acc + digit_value c) r
  end.

(** The most digits [int] converts: the interpreter's default
    [sys.get_int_max_str_digits()]. *)
Definition int_max_str_digits : nat := 4300.

(** [int(s)] for a text of decimal digits, which is all the callers pass
    (the group [(\d+)] of a match).  [None] is the [ValueError] that [int]
    raises for a text of more than [int_max_str_digits] characters, leading
    zeros counted. *)
Definition int (s : string) : option Z :=
  if (String.length s <=? int_max_str_digits)%nat
  then Some (int_from 0 s)
  else None.

(** [s.split()]: the maximal runs of non-space characters. *)
Fixpoint split_from (cur : string) (s : string) : list string :=
  match s with
  | EmptyString =>
      match cur with EmptyString => [] | _ => [cur] end
  | String c r =>
      if isspace c
      then match cur with
           | EmptyString => split_from EmptyString r
           | _ => cur :: split_from EmptyString r
           end
      else split_from (cur ++ String c EmptyString) r
  end.

Definition split (s : string) : list string := split_from EmptyString s.

End Py.

(** ** The fragment of [re] the service uses *)

Module re.

(** The patterns of [api.py] are sequences of these items. *)
Inductive item : Type :=
| Lit (s : string)                   (* literal text *)
| Alt (choices : list string)        (* (?:s1|s2), tried left to right *)
| Opt (s : string)                   (* (?:s)?, greedy *)
| Plus (cls : ascii -> bool)         (* c+, greedy *)
| GroupPlus (cls : ascii -> bool)    (* (c+), the capturing group *)
| GroupOne (cls : ascii -> bool).    (* (c),  the capturing group *)

Definition pattern := list item.

(** Length of the longest prefix of [s] made of characters of [cls]. *)
Fixpoint run (cls : ascii -> bool) (s : string) : nat :=
  match s with
  | EmptyString => 0
  | String c r => if cls c then S (run cls r) else 0
  end.

Fixpoint take (n : nat) (s : string) : string :=
  match n, s with
  | S n', String c r => String c (take n' r)
  | _, _ => EmptyString
  end.

Fixpoint drop (n : nat) (s : string) : string :=
  match n, s with
  | S n', String _ r => drop n' r
  | _, _ => s
  end.

(** Greedy repetition with backtracking: the continuation [k] is tried
    after [n] characters, then [n-1], ... down to one. *)
Fixpoint longest_first {A} (k : nat -> option A) (n : nat) : option A :=
  match n with
  | O => None
  | S n' =>
      match k n with
      | Some r => Some r
      | None => longest_first k n'
      end
  end.

Fixpoint first_choice {A} (k : string -> option A) (l : list string)
  : option A :=
  match l with
  | [] => None
  | c :: l' =>
      match k c with
      | Some r => Some r
      | None => first_choice k l'
      end
  end.

(** [match_here p s g]: match [p] at the start of [s]; [g] is the text of
    group 1 so far.  The result is the text of group 1. *)
Fixpoint match_here (p : pattern) (s : string) (g : string)
  : option string :=
  match p with
  | [] => Some g
  | Lit l :: p' =>
      match Py.after_prefix l s with
      | Some r => match_here p' r g
      | None => None
      end
  | Alt ls :: p' =>
      first_choice
        (fun l => match Py.after_prefix l s with
                  | Some r => match_here p' r g
                  | None => None
                  end) ls
  | Opt l :: p' =>
      match match Py.after_prefix l s with
            | Some r => match_here p' r g
            | None => None
            end with
      | Some res => Some res
      | None => match_here p' s g
      end
  | Plus cls :: p' =>
      longest_first (fun n => match_here p' (drop n s) g) (run cls s)
  | GroupPlus cls :: p' =>
      longest_first (fun n => match_here p' (drop n s) (take n s))
                    (run cls s)
  | GroupOne cls :: p' =>
      match s with
      | String c r =>
          if cls c then match_here p' r (String c EmptyString) else None
      | EmptyString => None
      end
  end.

(** [re.search(p, s)]: the match at the leftmost position that has one.
    A match object is represented by its [group(1)]; [None] is no match. *)
Fixpoint search (p : pattern) (s : string) : option string :=
  match match_here p s EmptyString with
  | Some g => Some g
  | None =>
      match s with
      | EmptyString => None
      | String _ r => search p r
      end
  end.

End re.

(** ** [utils.py]: the analytic properties of a text *)

Module utils.

Definition length (value : string) : Z := Z.of_nat (String.length value).

Definition is_palindrome (value : string) : bool :=
  let normalized := Py.casefold (Py.strip value) in
  String.eqb normalized (Py.reversed normalized).

Definition unique_characters (value : string) : Z :=
  Z.of_nat (List.length (nodup ascii_dec (list_ascii_of_string value))).

Definition word_count (value : string) : Z :=
  Z.of_nat (List.length (Py.split value)).

(** [dict(Counter(value))]: one entry per character, in the order of first
    occurrence. *)
Fixpoint count_up (c : ascii) (m : list (ascii * Z)) : list (ascii * Z) :=
  match m with
  | [] => [(c, 1%Z)]
  | (d, n) :: m' =>
      if Ascii.eqb c d then (d, (n + 1)%Z) :: m' else (d, n) :: count_up c m'
  end.

Definition character_frequency_map (value : string) : list (ascii * Z) :=
  fold_left (fun m c => count_up c m) (list_ascii_of_string value) [].

End utils.

(** ** [schema.py]: the payloads *)

Module StringProperties.
Record t : Type := mk {
  length : Z;
  is_palindrome : bool;
  unique_characters : Z;
  word_count : Z;
  sha256_hash : string;
  character_frequency_map : list (ascii * Z)
}.
End StringProperties.

Module StringResource.
Record t : Type := mk {
  id : string;
  value : string;
  properties : StringProperties.t;
  created_at : Z
}.
End StringResource.

(** The keyword arguments a filter set is built from: in [api.py] the
    dictionary [inferred], which only ever holds these five keys with values
    of these types, and the five query parameters of [list_strings]. *)
Module Inferred.
Record t : Type := mk {
  is_palindrome : option bool;
  min_length : option Z;
  max_length : option Z;
  word_count : option Z;
  contains_character : option string
}.

(** [{}] *)
Definition empty : t := mk None None None None None.

(** [not inferred] *)
Definition is_empty (d : t) : bool :=
  match d with
  | mk None None None None None => true
  | _ => false
  end.

Definition set_is_palindrome (v : bool) (d : t) : t :=
  mk (Some v) (min_length d) (max_length d) (word_count d)
     (contains_character d).
Definition set_min_length (v : Z) (d : t) : t :=
  mk (is_palindrome d) (Some v) (max_length d) (word_count d)
     (contains_character d).
Definition set_max_length (v : Z) (d : t) : t :=
  mk (is_palindrome d) (min_length d) (Some v) (word_count d)
     (contains_character d).
Definition set_word_count (v : Z) (d : t) : t :=
  mk (is_palindrome d) (min_length d) (max_length d) (Some v)
     (contains_character d).
Definition set_contains_character (v : string) (d : t) : t :=
  mk (is_palindrome d) (min_length d) (max_length d) (word_count d)
     (Some v).

(** [d.get(key, default)] *)
Definition get {A} (field : option A) (default : A) : A :=
  match field with Some v => v | None => default end.
End Inferred.

Module AppliedFilters.
Record t : Type := mk {
  is_palindrome : option bool;
  min_length : option Z;
  max_length : option Z;
  word_count : option Z;
  contains_character : option string
}.

(** The declared field constraints: [contains_character] has
    [min_length=1, max_length=1].  The integer fields carry none, and are
    taken to accept a Python [int] of any size. *)
Definition constraints_hold (kw : Inferred.t) : bool :=
  match Inferred.contains_character kw with
  | None => true
  | Some c => (String.length c =? 1)%nat
  end.

(** The constructor [AppliedFilters] applied to the keyword arguments
    [kw]; [None] is pydantic's [ValidationError]. *)
Definition init (kw : Inferred.t) : option t :=
  if constraints_hold kw
  then Some (mk (Inferred.is_palindrome kw) (Inferred.min_length kw)
                (Inferred.max_length kw) (Inferred.word_count kw)
                (Inferred.contains_character kw))
  else None.

(** [bool(filters.model_dump(exclude_none=True))] *)
Definition any_set (f : t) : bool :=
  match f with
  | mk None None None None None => false
  | _ => true
  end.
End AppliedFilters.

Module StringsListResponse.
Record t : Type := mk {
  data : list StringResource.t;
  count : Z;
  filters_applied : option AppliedFilters.t
}.
End StringsListResponse.

Module NaturalLanguageInterpretation.
Record t : Type := mk {
  original : string;
  parsed_filters : AppliedFilters.t
}.
End NaturalLanguageInterpretation.

Module NaturalLanguageFilterResponse.
Record t : Type := mk {
  data : list StringResource.t;
  count : Z;
  interpreted_query : NaturalLanguageInterpretation.t
}.
End NaturalLanguageFilterResponse.

(** ** [api.py]: the store, the evaluator, the interpreter, the endpoints *)

Module api.

Local Open Scope Z_scope.

(** The ways a request for records fails.  The first three name the
    [raise] statements they stand for; [status_code] and [detail] below
    give the [HTTPException] raised there.  The last is the [ValueError] of
    [int], which nothing catches: the framework answers it by itself. *)
Inductive failure : Type :=
| ParseError        (* the text is empty or no rule fired *)
| ValidationError   (* pydantic refused the fields *)
| ConflictError     (* min_length > max_length *)
| ValueError.       (* int() refused the digits *)

Inductive endpoint : Type := ListStrings | FilterByNaturalLanguage.

Definition status_code (e : endpoint) (f : failure) : Z :=
  match e, f with
  | _, ValueError => 500
  | ListStrings, _ => 400
  | FilterByNaturalLanguage, ParseError => 400
  | FilterByNaturalLanguage, _ => 422
  end.

Definition detail (e : endpoint) (f : failure) : string :=
  match e, f with
  | _, ValueError => "Internal Server Error"
  | ListStrings, _ => "Invalid query parameter values or types"
  | FilterByNaturalLanguage, ParseError =>
      "Unable to parse natural language query"
  | FilterByNaturalLanguage, _ =>
      "Query parsed but resulted in conflicting filters"
  end.

(** [_STRING_STORE]: a dictionary keyed by the text, which keeps the order
    of insertion. *)
Definition store := list (string * StringResource.t).

Fixpoint get (st : store) (key : string) : option StringResource.t :=
  match st with
  | [] => None
  | (k, r) :: st' => if String.eqb k key then Some r else get st' key
  end.

Definition values (st : store) : list StringResource.t := map snd st.

Section Building.

(** [utils.sha256_hash], the hex digest [hashlib] computes. *)
Variable sha256_hash : string -> string.

Definition _build_properties (value : string) : StringProperties.t :=
  StringProperties.mk
    (utils.length value)
    (utils.is_palindrome value)
    (utils.unique_characters value)
    (utils.word_count value)
    (sha256_hash value)
    (utils.character_frequency_map value).

(** [utcnow] is the reading of the clock at the call. *)
Definition _build_resource (utcnow : Z) (value : string)
           (created_at : option Z) : StringResource.t :=
  let properties := _build_properties value in
  StringResource.mk
    (StringProperties.sha256_hash properties)
    value
    properties
    (match created_at with Some t => t | None => utcnow end).

(** The store after the call, and the resource returned. *)
Definition store_string (utcnow : Z) (st : store) (value : string)
           (created_at : option Z) : store * StringResource.t :=
  match get st value with
  | Some existing => (st, existing)
  | None =>
      let resource := _build_resource utcnow value created_at in
      (st ++ [(value, resource)], resource)
  end.

End Building.

(** The body of the loop of [_apply_filters] for one record: [false] is
    [continue], [true] reaches [results.append(record)]. *)
Definition keeps (filters : AppliedFilters.t) (record : StringResource.t)
  : bool :=
  let props := StringResource.properties record in
  if match AppliedFilters.is_palindrome filters with
     | Some b => negb (Bool.eqb (StringProperties.is_palindrome props) b)
     | None => false
     end then false
  else if match AppliedFilters.min_length filters with
          | Some n => (StringProperties.length props <? n)%Z
          | None => false
          end then false
  else if match AppliedFilters.max_length filters with
          | Some n => (StringProperties.length props >? n)%Z
          | None => false
          end then false
  else if match AppliedFilters.word_count filters with
          | Some n => negb (StringProperties.word_count props =? n)%Z
          | None => false
          end then false
  else match AppliedFilters.contains_character filters with
       | Some c =>
           let target := Py.lower c in
           if negb (Py.contains target
                      (Py.lower (StringResource.value record)))
           then false
           else true
       | None => true
       end.

Definition _apply_filters (records : list StringResource.t)
           (filters : AppliedFilters.t) : list StringResource.t :=
  fold_left
    (fun results record =>
       if keeps filters record then results ++ [record] else results)
    records [].

Definition _parsed_filters_or_none (filters : AppliedFilters.t)
  : option AppliedFilters.t :=
  if AppliedFilters.any_set filters then Some filters else None.

(** *** The recognition rules *)

(** [longer than\s+(\d+)\s+character] and its three siblings. *)
Definition number_of_characters (lead : re.item) : re.pattern :=
  [lead; re.Plus Py.isspace; re.GroupPlus Py.isdecimal;
   re.Plus Py.isspace; re.Lit "character"].

Definition longer_re := number_of_characters (re.Lit "longer than").
Definition at_least_re := number_of_characters (re.Lit "at least").
Definition shorter_re := number_of_characters (re.Lit "shorter than").
Definition at_most_re :=
  number_of_characters (re.Alt ["at most"; "no more than"]).

(** [(?:letter|character)\s+([a-z])] *)
Definition letter_re : re.pattern :=
  [re.Alt ["letter"; "character"]; re.Plus Py.isspace;
   re.GroupOne Py.is_a_z].

(** [contain(?:ing)? the letter\s+([a-z])] *)
Definition contains_letter_re : re.pattern :=
  [re.Lit "contain"; re.Opt "ing"; re.Lit " the letter";
   re.Plus Py.isspace; re.GroupOne Py.is_a_z].

(** The nine [if] statements, in the order of the source; each takes the
    normalized text and the dictionary so far.  Those that call [int] fail
    with its [ValueError]. *)
Definition rule1 (normalized : string) (inferred : Inferred.t) :=
  if Py.contains "palindrom" normalized
  then Inferred.set_is_palindrome true inferred
  else inferred.

Definition rule2 (normalized : string) (inferred : Inferred.t) :=
  if Py.contains "single word" normalized
     || Py.contains "one word" normalized
  then Inferred.set_word_count 1 inferred
  else inferred.

Definition rule3 (normalized : string) (inferred : Inferred.t)
  : failure + Inferred.t :=
  match re.search longer_re normalized with
  | Some group1 =>
      match Py.int group1 with
      | Some n => inr (Inferred.set_min_length (n + 1) inferred)
      | None => inl ValueError
      end
  | None => inr inferred
  end.

Definition rule4 (normalized : string) (inferred : Inferred.t)
  : failure + Inferred.t :=
  match re.search at_least_re normalized with
  | Some group1 =>
      match Py.int group1 with
      | Some n =>
          inr (Inferred.set_min_length
                 (Z.max n (Inferred.get (Inferred.min_length inferred) 0))
                 inferred)
      | None => inl ValueError
      end
  | None => inr inferred
  end.

Definition rule5 (normalized : string) (inferred : Inferred.t)
  : failure + Inferred.t :=
  match re.search shorter_re normalized with
  | Some group1 =>
      match Py.int group1 with
      | Some n => inr (Inferred.set_max_length (n - 1) inferred)
      | None => inl ValueError
      end
  | None => inr inferred
  end.

Definition rule6 (normalized : string) (inferred : Inferred.t)
  : failure + Inferred.t :=
  match re.search at_most_re normalized with
  | Some group1 =>
      match Py.int group1 with
      | Some n =>
          match Py.int group1 with
          | Some n' =>
              inr (Inferred.set_max_length
                     (Z.min n (Inferred.get (Inferred.max_length inferred)
                                            n'))
                     inferred)
          | None => inl ValueError
          end
      | None => inl ValueError
      end
  | None => inr inferred
  end.

Definition rule7 (normalized : string) (inferred : Inferred.t) :=
  match re.search letter_re normalized with
  | Some group1 => Inferred.set_contains_character group1 inferred
  | None => inferred
  end.

Definition rule8 (normalized : string) (inferred : Inferred.t) :=
  if Py.contains "first vowel" normalized
  then Inferred.set_contains_character "a" inferred
  else inferred.

Definition rule9 (normalized : string) (inferred : Inferred.t) :=
  match re.search contains_letter_re normalized with
  | Some group1 => Inferred.set_contains_character group1 inferred
  | None => inferred
  end.

(** One statement after another: the first failure ends the run. *)
Definition and_then {A B} (r : failure + A) (k : A -> failure + B)
  : failure + B :=
  match r with
  | inl e => inl e
  | inr a => k a
  end.

(** The dictionary [inferred] once the nine rules have run. *)
Definition infer (normalized : string) : failure + Inferred.t :=
  and_then (rule3 normalized
              (rule2 normalized (rule1 normalized Inferred.empty)))
    (fun inferred =>
  and_then (rule4 normalized inferred)
    (fun inferred =>
  and_then (rule5 normalized inferred)
    (fun inferred =>
  and_then (rule6 normalized inferred)
    (fun inferred =>
  inr (rule9 normalized (rule8 normalized (rule7 normalized inferred))))))).

Definition normalize (query : string) : string :=
  Py.lower (Py.strip query).

(** [_parse_natural_language_query] up to the second [raise]: the
    extraction of the raw predicate map. *)
Definition extract (query : string) : failure + Inferred.t :=
  let normalized := normalize query in
  match normalized with
  | EmptyString => inl ParseError
  | _ =>
      and_then (infer normalized)
        (fun inferred =>
           if Inferred.is_empty inferred then inl ParseError
           else inr inferred)
  end.

(** The rest of it: the filter set is built, then the bounds compared. *)
Definition assemble (inferred : Inferred.t) : failure + AppliedFilters.t :=
  match AppliedFilters.init inferred with
  | None => inl ValidationError
  | Some filters =>
      match AppliedFilters.min_length filters,
            AppliedFilters.max_length filters with
      | Some lo, Some hi =>
          if (lo >? hi)%Z then inl ConflictError else inr filters
      | _, _ => inr filters
      end
  end.

Definition _parse_natural_language_query (query : string)
  : failure + AppliedFilters.t :=
  match extract query with
  | inl e => inl e
  | inr inferred => assemble inferred
  end.

(** *** The two endpoints *)

(** The constraints declared on the query parameters of [list_strings]
    ([ge=0], [min_length=1, max_length=1]); the framework checks them
    before the handler runs. *)
Definition query_parameters_ok (kw : Inferred.t) : bool :=
  match Inferred.min_length kw with Some n => (0 <=? n)%Z | None => true end
  && match Inferred.max_length kw with Some n => (0 <=? n)%Z | None => true end
  && match Inferred.word_count kw with Some n => (0 <=? n)%Z | None => true end
  && match Inferred.contains_character kw with
     | Some c => (String.length c =? 1)%nat
     | None => true
     end.

Definition len {A} (l : list A) : Z := Z.of_nat (List.length l).

Definition list_strings (st : store)
           (is_palindrome : option bool)
           (min_length max_length word_count : option Z)
           (contains_character : option string)
  : failure + StringsListResponse.t :=
  if match min_length, max_length with
     | Some lo, Some hi => (lo >? hi)%Z
     | _, _ => false
     end
  then inl ConflictError
  else
    match AppliedFilters.init
            (Inferred.mk is_palindrome min_length max_length word_count
                         contains_character) with
    | None => inl ValidationError
    | Some filters =>
        let filtered_records := _apply_filters (values st) filters in
        inr (StringsListResponse.mk
               filtered_records
               (len filtered_records)
               (_parsed_filters_or_none filters))
    end.

Definition filter_by_natural_language (st : store) (query : string)
  : failure + NaturalLanguageFilterResponse.t :=
  match _parse_natural_language_query query with
  | inl e => inl e
  | inr filters =>
      let filtered_records := _apply_filters (values st) filters in
      let interpretation :=
        NaturalLanguageInterpretation.mk query filters in
      inr (NaturalLanguageFilterResponse.mk
             filtered_records
             (len filtered_records)
             interpretation)
  end.

(** *** The store endpoints *)

(** The ways [get_string], [delete_string] and [create_string] fail, each
    an [HTTPException] with the status and detail below. *)
Inductive http_error : Type :=
| NotFound          (* the text is not a key of the store *)
| MissingValue      (* the body has no value member *)
| InvalidType       (* the value member is not a text *)
| AlreadyExists.    (* the text is a key of the store *)

Definition http_status (e : http_error) : Z :=
  match e with
  | NotFound => 404
  | MissingValue => 400
  | InvalidType => 422
  | AlreadyExists => 409
  end.

Definition quote : string := String "034"%char EmptyString.

Definition http_detail (e : http_error) : string :=
  match e with
  | NotFound => "String does not exist in the system"
  | MissingValue =>
      "Invalid request body or missing " ++ quote ++ "value" ++ quote
      ++ " field"
  | InvalidType =>
      "Invalid data type for " ++ quote ++ "value" ++ quote
      ++ " (must be string)"
  | AlreadyExists => "String already exists in the system"
  end.

#[local] Set Warnings "-register-all".

(** A decoded JSON value (numbers with a fraction are left out);
    [create_string] only asks whether the member it reads is a text. *)
Inductive json : Type :=
| JNull
| JBool (b : bool)
| JNumber (n : Z)
| JString (s : string)
| JArray (items : list json)
| JObject (members : list (string * json)).

(** The request body, a dictionary: [payload_get] is the member bound to a
    key, [None] when the key is not in it. *)
Definition payload := list (string * json).

Fixpoint payload_get (p : payload) (key : string) : option json :=
  match p with
  | [] => None
  | (k, v) :: p' => if String.eqb k key then Some v else payload_get p' key
  end.

(** [key in _STRING_STORE] *)
Definition has_key (st : store) (key : string) : bool :=
  match get st key with Some _ => true | None => false end.

(** The store after [_STRING_STORE.pop(key, None)]. *)
Definition pop (st : store) (key : string) : store :=
  filter (fun kv => negb (String.eqb (fst kv) key)) st.

Definition get_string (st : store) (string_value : string)
  : http_error + StringResource.t :=
  match get st string_value with
  | None => inl NotFound
  | Some resource => inr resource
  end.

(** The result is the store after the call. *)
Definition delete_string (st : store) (string_value : string)
  : http_error + store :=
  if negb (has_key st string_value) then inl NotFound
  else inr (pop st string_value).

Section Creating.

Variable sha256_hash : string -> string.

(** The result is the store after the call and the resource returned. *)
Definition create_string (utcnow : Z) (st : store) (body : payload)
  : http_error + store * StringResource.t :=
  match payload_get body "value" with
  | None => inl MissingValue
  | Some value =>
      match value with
      | JString text =>
          if has_key st text then inl AlreadyExists
          else inr (store_string sha256_hash utcnow st text None)
      | _ => inl InvalidType
      end
  end.

End Creating.

(** *** The routes *)

(** The routes in the order they are registered: those of the router, under
    its prefix, when [main.py] includes it, then the health check.  A path
    is a sequence of literal pieces and parameters; a parameter stands for
    one or more characters other than the slash.  The routes the framework
    adds for its own documentation have paths outside the ones below and
    are left out. *)
Inductive method : Type := GET | POST | DELETE | PUT | PATCH.

Inductive handler : Type :=
| to_get_string
| to_list_strings
| to_filter_by_natural_language
| to_delete_string
| to_create_string
| to_healthcheck.

Inductive piece : Type :=
| Static (s : string)
| Param.

Definition routes : list (method * list piece * handler) :=
  [ (GET, [Static "/strings/"; Param], to_get_string);
    (GET, [Static "/strings"], to_list_strings);
    (GET, [Static "/strings/filter-by-natural-language"],
     to_filter_by_natural_language);
    (DELETE, [Static "/strings/"; Param], to_delete_string);
    (POST, [Static "/strings"], to_create_string);
    (GET, [Static "/"], to_healthcheck) ].

Definition method_eqb (a b : method) : bool :=
  match a, b with
  | GET, GET | POST, POST | DELETE, DELETE | PUT, PUT | PATCH, PATCH => true
  | _, _ => false
  end.

Definition not_slash (c : ascii) : bool := negb (Ascii.eqb c "/"%char).

(** The end of the path, as the [$] of the compiled path sees it: the end
    of the text, or a last line feed. *)
Definition at_end (s : string) : bool :=
  match s with
  | EmptyString => true
  | String c EmptyString => (Py.ord c =? 10)%N
  | _ => false
  end.

(** The whole path against the pieces; the result is the texts of the
    parameters. *)
Fixpoint path_match (ps : list piece) (path : string)
         (params : list string) : option (list string) :=
  match ps with
  | [] => if at_end path then Some params else None
  | Static s :: ps' =>
      match Py.after_prefix s path with
      | Some rest => path_match ps' rest params
      | None => None
      end
  | Param :: ps' =>
      re.longest_first
        (fun n => path_match ps' (re.drop n path)
                             (params ++ [re.take n path]))
        (re.run not_slash path)
  end.

(** The first route, in order, that matches the method and the path takes
    the request; [None] when no handler of the application gets it and the
    framework answers by itself. *)
Fixpoint dispatch_in (rs : list (method * list piece * handler))
         (m : method) (path : string) : option (handler * list string) :=
  match rs with
  | [] => None
  | (m', ps, h) :: rs' =>
      match (if method_eqb m m' then path_match ps path [] else None) with
      | Some params => Some (h, params)
      | None => dispatch_in rs' m path
      end
  end.

Definition dispatch (m : method) (path : string)
  : option (handler * list string) :=
  dispatch_in routes m path.

End api.

(** * Notions of the specification *)

Import api.

Local Open Scope Z_scope.

(** What the specification asks of a record, field by field: a field that
    is absent asks nothing. *)
Definition present {A} (field : option A) (check : A -> bool) : bool :=
  match field with
  | None => true
  | Some v => check v
  end.

Definition satisfiesb (filters : AppliedFilters.t) (record : StringResource.t)
  : bool :=
  let props := StringResource.properties record in
  present (AppliedFilters.is_palindrome filters)
          (fun b => Bool.eqb (StringProperties.is_palindrome props) b)
  && present (AppliedFilters.min_length filters)
             (fun n => n <=? StringProperties.length props)
  && present (AppliedFilters.max_length filters)
             (fun n => StringProperties.length props <=? n)
  && present (AppliedFilters.word_count filters)
             (fun n => StringProperties.word_count props =? n)
  && present (AppliedFilters.contains_character filters)
             (fun c => Py.contains (Py.lower c)
                         (Py.lower (StringResource.value record))).

Definition satisfies (filters : AppliedFilters.t) (record : StringResource.t)
  : Prop :=
  let props := StringResource.properties record in
  (forall b, AppliedFilters.is_palindrome filters = Some b ->
             StringProperties.is_palindrome props = b)
  /\ (forall n, AppliedFilters.min_length filters = Some n ->
                n <= StringProperties.length props)
  /\ (forall n, AppliedFilters.max_length filters = Some n ->
                StringProperties.length props <= n)
  /\ (forall n, AppliedFilters.word_count filters = Some n ->
                StringProperties.word_count props = n)
  /\ (forall c, AppliedFilters.contains_character filters = Some c ->
                Py.contains (Py.lower c)
                  (Py.lower (StringResource.value record)) = true).

(** The nine recognition rules, and the condition of the [if] statement of
    each. *)
Inductive rule : Type :=
| Palindrome | OneWord | LongerThan | AtLeast | ShorterThan | AtMost
| Letter | FirstVowel | ContainsLetter.

Definition all_rules : list rule :=
  [Palindrome; OneWord; LongerThan; AtLeast; ShorterThan; AtMost;
   Letter; FirstVowel; ContainsLetter].

Definition matched (m : option string) : bool :=
  match m with Some _ => true | None => false end.

Definition fires (r : rule) (normalized : string) : bool :=
  match r with
  | Palindrome => Py.contains "palindrom" normalized
  | OneWord =>
      Py.contains "single word" normalized
      || Py.contains "one word" normalized
  | LongerThan => matched (re.search longer_re normalized)
  | AtLeast => matched (re.search at_least_re normalized)
  | ShorterThan => matched (re.search shorter_re normalized)
  | AtMost => matched (re.search at_most_re normalized)
  | Letter => matched (re.search letter_re normalized)
  | FirstVowel => Py.contains "first vowel" normalized
  | ContainsLetter => matched (re.search contains_letter_re normalized)
  end.

(** Two stored records, for the examples. *)
Definition civic : StringResource.t :=
  StringResource.mk "id-of-civic" "civic"
    (StringProperties.mk 5 true 3 1 "id-of-civic"
       [("c"%char, 2); ("i"%char, 2); ("v"%char, 1)])
    0.

Definition hello : StringResource.t :=
  StringResource.mk "id-of-hello" "hello"
    (StringProperties.mk 5 false 4 1 "id-of-hello"
       [("h"%char, 1); ("e"%char, 1); ("l"%char, 2); ("o"%char, 1)])
    1.

Definition example_store : store := [("civic", civic); ("hello", hello)].

(** What a frequency map holds for a character, and the sum of its
    counts. *)
Fixpoint frequency (m : list (ascii * Z)) (c : ascii) : option Z :=
  match m with
  | [] => None
  | (d, n) :: m' => if Ascii.eqb c d then Some n else frequency m' c
  end.

Fixpoint total (m : list (ascii * Z)) : Z :=
  match m with
  | [] => 0
  | (_, n) :: m' => n + total m'
  end.

(** How often a character occurs in a text. *)
Definition occurrences (c : ascii) (value : string) : nat :=
  count_occ ascii_dec (list_ascii_of_string value) c.

(** A text made of white space only. *)
Fixpoint blank (s : string) : bool :=
  match s with
  | EmptyString => true
  | String c r => Py.isspace c && blank r
  end.

(** An entry of the store as the endpoints make it: a text bound to the
    resource built from that text. *)
Definition built (sha256_hash : string -> string)
           (kv : string * StringResource.t) : Prop :=
  StringResource.value (snd kv) = fst kv
  /\ StringResource.id (snd kv) = sha256_hash (fst kv)
  /\ StringResource.properties (snd kv)
     = _build_properties sha256_hash (fst kv).

(** The store as a dictionary: no key twice, every entry [built]. *)
Definition store_ok (sha256_hash : string -> string) (st : store) : Prop :=
  NoDup (map fst st) /\ Forall (built sha256_hash) st.

(** A text made of characters of one class only; [digits] for the decimal
    digits. *)
Fixpoint all_in (cls : ascii -> bool) (s : string) : bool :=
  match s with
  | EmptyString => true
  | String c r => cls c && all_in cls r
  end.

Definition digits (s : string) : bool := all_in Py.isdecimal s.

(** What a numeric rule reads in the text: nothing when its pattern is not
    found, the number when [int] converts the digits captured, the failure
    of [int] otherwise. *)
Definition captured (m : option string) : failure + option Z :=
  match m with
  | None => inr None
  | Some g =>
      match Py.int g with
      | Some n => inr (Some n)
      | None => inl ValueError
      end
  end.

(** The minimum from what rules 3 and 4 read, and the maximum from what
    rules 5 and 6 read. *)
Definition merged_min (n3 n4 : option Z) : option Z :=
  match n3, n4 with
  | Some a, Some b => Some (Z.max b (a + 1))
  | None, Some b => Some (Z.max b 0)
  | Some a, None => Some (a + 1)
  | None, None => None
  end.

Definition merged_max (n5 n6 : option Z) : option Z :=
  match n5, n6 with
  | Some a, Some b => Some (Z.min b (a - 1))
  | None, Some b => Some b
  | Some a, None => Some (a - 1)
  | None, None => None
  end.

(** The character from what rules 7, 8 and 9 read. *)
Definition said_character (normalized : string) : option string :=
  match re.search contains_letter_re normalized with
  | Some g9 => Some g9
  | None =>
      if Py.contains "first vowel" normalized then Some "a"
      else re.search letter_re normalized
  end.

(** Some numeric rule finds its pattern with more digits than [int]
    converts. *)
Definition refused (m : option string) : bool :=
  match m with
  | Some g => negb (String.length g <=? Py.int_max_str_digits)%nat
  | None => false
  end.

Definition int_refuses (normalized : string) : bool :=
  refused (re.search longer_re normalized)
  || refused (re.search at_least_re normalized)
  || refused (re.search shorter_re normalized)
  || refused (re.search at_most_re normalized).

(** A number of [n] digits, all 9. *)
Fixpoint nines (n : nat) : string :=
  match n with
  | O => EmptyString
  | S n' => String "9" (nines n')
  end.

(** A stand-in for the digest, for the examples. *)
Definition example_digest (value : string) : string :=
  "digest of " ++ value.

(** * Properties *)

(** ** The evaluator *)

(** The loop of [_apply_filters] appends the kept records to what it has
    collected so far. *)
Lemma apply_filters_loop (filters : AppliedFilters.t)
      (records results : list StringResource.t) :
  fold_left
    (fun results record =>
       if keeps filters record then results ++ [record] else results)
    records results
  = results ++ filter (keeps filters) records.
Proof.
  revert results.
  induction records as [| record records IH]; intros results; simpl.
  - now rewrite app_nil_r.
  - rewrite IH. destruct (keeps filters record); simpl.
    + now rewrite <- app_assoc.
    + reflexivity.
Qed.

Lemma apply_filters_filter (filters : AppliedFilters.t)
      (records : list StringResource.t) :
  _apply_filters records filters = filter (keeps filters) records.
Proof. unfold _apply_filters. now rewrite apply_filters_loop. Qed.

Lemma present_spec {A} (field : option A) (check : A -> bool) :
  present field check = true <->
  forall v, field = Some v -> check v = true.
Proof.
  destruct field as [v |]; simpl; split.
  - intros H w [= <-]. exact H.
  - intros H. now apply H.
  - intros _ w [=].
  - reflexivity.
Qed.

Lemma satisfiesb_spec (filters : AppliedFilters.t)
      (record : StringResource.t) :
  satisfiesb filters record = true <-> satisfies filters record.
Proof.
  unfold satisfiesb, satisfies; cbv zeta.
  rewrite !andb_true_iff, !present_spec.
  split.
  - intros [[[[H1 H2] H3] H4] H5].
    repeat split; intros v Hv.
    + now apply Bool.eqb_prop, H1.
    + now apply Z.leb_le, H2.
    + now apply Z.leb_le, H3.
    + now apply Z.eqb_eq, H4.
    + now apply H5.
  - intros (H1 & H2 & H3 & H4 & H5).
    repeat split; intros v Hv.
    + rewrite (H1 v Hv). apply Bool.eqb_reflx.
    + now apply Z.leb_le, H2.
    + now apply Z.leb_le, H3.
    + now apply Z.eqb_eq, H4.
    + now apply H5.
Qed.

(** The chain of [continue]s keeps exactly the records that pass every
    check. *)
Lemma keeps_satisfiesb (filters : AppliedFilters.t)
      (record : StringResource.t) :
  keeps filters record = satisfiesb filters record.
Proof.
  unfold keeps, satisfiesb, present; cbv zeta.
  destruct filters as [p lo hi w c]; simpl.
  destruct p as [b |]; simpl;
    [destruct (Bool.eqb _ b); simpl; [| reflexivity] |];
    (destruct lo as [lo |]; simpl;
     [rewrite (Z.leb_antisym _ lo);
      destruct (_ <? lo); simpl; [reflexivity |] |]);
    (destruct hi as [hi |]; simpl;
     [rewrite Z.gtb_ltb, (Z.leb_antisym hi);
      destruct (hi <? _); simpl; [reflexivity |] |]);
    (destruct w as [w |]; simpl;
     [destruct (_ =? w); simpl; [| reflexivity] |]);
    (destruct c as [c |]; simpl;
     [destruct (Py.contains _ _); reflexivity | reflexivity]).
Qed.

(** Membership of one character, as [in] computes it. *)
Lemma contains_char (c : ascii) (s : string) :
  Py.contains (String c EmptyString) s = true <->
  In c (list_ascii_of_string s).
Proof.
  induction s as [| b s IH]; simpl.
  - unfold Py.startswith; simpl. split; [discriminate | contradiction].
  - unfold Py.startswith; simpl.
    destruct (Ascii.eqb c b) eqn:E; simpl.
    + apply Ascii.eqb_eq in E. subst. split; auto.
    + rewrite IH. apply Ascii.eqb_neq in E.
      split; [auto | intros [H | H]; [congruence | exact H]].
Qed.

(** C4.  Evaluation returns exactly the records that satisfy every present
    predicate, in the order of the input: [_apply_filters] is the stable
    filter by [satisfiesb], which decides [satisfies], the conjunction of
    the five checks in which an absent field asks nothing.  The records
    "civic", "hello", "racecar", stored in that order, evaluate under
    [{is_palindrome: true}] to "civic", "racecar". *)
Theorem apply_filters_conjunctive :
  (forall filters records,
      _apply_filters records filters = filter (satisfiesb filters) records)
  /\ (forall filters record,
         satisfiesb filters record = true <-> satisfies filters record)
  /\ (forall (sha256_hash : string -> string) (utcnow : Z),
         let st :=
           fold_left
             (fun st v => fst (store_string sha256_hash utcnow st v None))
             ["civic"; "hello"; "racecar"] [] in
         _apply_filters (values st)
           (AppliedFilters.mk (Some true) None None None None)
         = map (fun v => _build_resource sha256_hash utcnow v None)
               ["civic"; "racecar"]).
Proof.
  split; [| split].
  - intros filters records. rewrite apply_filters_filter.
    apply filter_ext. intros record. apply keeps_satisfiesb.
  - apply satisfiesb_spec.
  - intros sha256_hash utcnow. reflexivity.
Qed.

(** C5.  The empty filter set, all five fields absent, returns the input
    sequence unchanged. *)
Theorem empty_filter_identity (records : list StringResource.t) :
  _apply_filters records (AppliedFilters.mk None None None None None)
  = records.
Proof.
  rewrite apply_filters_filter.
  induction records as [| record records IH]; simpl.
  - reflexivity.
  - now rewrite IH.
Qed.

(** C6.  Under [{contains_character: X}] a record is returned iff it was
    given and the lowercased [X] occurs among the characters of its
    lowercased text; the filter "A" returns a record whose text is
    "banana". *)
Theorem contains_character_case_insensitive :
  (forall (X : ascii) (record : StringResource.t)
          (records : list StringResource.t),
      In record
         (_apply_filters records
            (AppliedFilters.mk None None None None
                               (Some (String X EmptyString))))
      <-> In record records
          /\ In (Py.lower_char X)
                (list_ascii_of_string
                   (Py.lower (StringResource.value record))))
  /\ (forall id properties created_at,
         let banana := StringResource.mk id "banana" properties created_at in
         _apply_filters [banana]
           (AppliedFilters.mk None None None None (Some "A"))
         = [banana]).
Proof.
  split.
  - intros X record records.
    rewrite apply_filters_filter, filter_In, keeps_satisfiesb.
    unfold satisfiesb; simpl.
    now rewrite contains_char.
  - intros id properties created_at. reflexivity.
Qed.

(** ** The matcher *)

Lemma first_choice_some {A} (k : string -> option A) (l : list string)
      (r : A) :
  re.first_choice k l = Some r -> exists c, In c l /\ k c = Some r.
Proof.
  induction l as [| c l IH]; simpl; [discriminate |].
  destruct (k c) as [r' |] eqn:E.
  - intros [= <-]. exists c. auto.
  - intros H. destruct (IH H) as (c' & Hin & Hk). exists c'. auto.
Qed.

Lemma longest_first_some {A} (k : nat -> option A) (n : nat) (r : A) :
  re.longest_first k n = Some r ->
  exists m, (1 <= m <= n)%nat /\ k m = Some r.
Proof.
  induction n as [| n IH]; simpl; [discriminate |].
  destruct (k (S n)) as [r' |] eqn:E.
  - intros [= <-]. exists (S n). split; [lia | exact E].
  - intros H. destruct (IH H) as (m & Hm & Hk). exists m. split; [lia | exact Hk].
Qed.

(** A pattern that ends in [([a-z])] captures one character. *)
Lemma match_here_group_one (cls : ascii -> bool) (p : re.pattern) :
  forall s g g',
    re.match_here (p ++ [re.GroupOne cls]) s g = Some g' ->
    String.length g' = 1%nat.
Proof.
  induction p as [| i p IH]; intros s g g'; simpl.
  - destruct s as [| c r]; [discriminate |].
    destruct (cls c); [| discriminate]. now intros [= <-].
  - destruct i as [l | ls | l | c | c | c].
    + destruct (Py.after_prefix l s); [apply IH | discriminate].
    + intros H. apply first_choice_some in H. destruct H as (l & _ & H).
      destruct (Py.after_prefix l s); [eapply IH; eassumption | discriminate].
    + destruct (Py.after_prefix l s) as [r |].
      * destruct (re.match_here (p ++ [re.GroupOne cls]) r g) eqn:E.
        -- intros [= <-]. eapply IH; eassumption.
        -- apply IH.
      * apply IH.
    + intros H. apply longest_first_some in H. destruct H as (m & _ & H).
      eapply IH; eassumption.
    + intros H. apply longest_first_some in H. destruct H as (m & _ & H).
      eapply IH; eassumption.
    + destruct s as [| a r]; [discriminate |].
      destruct (c a); [apply IH | discriminate].
Qed.

Lemma search_some (p : re.pattern) (s g : string) :
  re.search p s = Some g ->
  exists s', re.match_here p s' EmptyString = Some g.
Proof.
  induction s as [| c s IH]; simpl.
  - destruct (re.match_here p EmptyString EmptyString) eqn:E; [| discriminate].
    intros [= <-]. eauto.
  - destruct (re.match_here p (String c s) EmptyString) eqn:E.
    + intros [= <-]. eauto.
    + exact IH.
Qed.

Lemma letter_re_one_character (s g : string) :
  re.search letter_re s = Some g -> String.length g = 1%nat.
Proof.
  intros H. apply search_some in H. destruct H as (s' & H).
  exact (match_here_group_one Py.is_a_z
           [re.Alt ["letter"; "character"]; re.Plus Py.isspace] _ _ _ H).
Qed.

Lemma contains_letter_re_one_character (s g : string) :
  re.search contains_letter_re s = Some g -> String.length g = 1%nat.
Proof.
  intros H. apply search_some in H. destruct H as (s' & H).
  exact (match_here_group_one Py.is_a_z
           [re.Lit "contain"; re.Opt "ing"; re.Lit " the letter";
            re.Plus Py.isspace] _ _ _ H).
Qed.

Lemma after_prefix_app (p s rest : string) :
  Py.after_prefix p s = Some rest -> s = (p ++ rest)%string.
Proof.
  revert s. induction p as [| a p IH]; intros s; simpl.
  - now intros [= <-].
  - destruct s as [| b s]; [discriminate |].
    destruct (Ascii.eqb a b) eqn:E; [| discriminate].
    apply Ascii.eqb_eq in E. subst. intros H. now rewrite (IH _ H).
Qed.

Lemma take_drop (n : nat) (s : string) :
  (re.take n s ++ re.drop n s)%string = s.
Proof.
  revert s. induction n as [| n IH]; intros [| c r]; simpl; trivial.
  now rewrite IH.
Qed.

(** What a greedy repetition consumes: a non-empty text of the class. *)
Lemma take_run (cls : ascii -> bool) (n : nat) (s : string) :
  (1 <= n <= re.run cls s)%nat ->
  all_in cls (re.take n s) = true /\ re.take n s <> EmptyString.
Proof.
  revert s. induction n as [| n IH]; intros s [H1 H2]; [lia |].
  destruct s as [| c r]; simpl in *; [lia |].
  destruct (cls c) eqn:E; [| lia]. split; [| discriminate].
  destruct n as [| n']; [now destruct r |].
  destruct (IH r) as [Hall _]; [lia |]. simpl in Hall |- *. exact Hall.
Qed.

Lemma blank_all_in (s : string) : blank s = all_in Py.isspace s.
Proof. induction s as [| c r IH]; simpl; [reflexivity | now rewrite IH]. Qed.

Lemma search_some_at (p : re.pattern) (s g : string) :
  re.search p s = Some g ->
  exists before s',
    s = (before ++ s')%string /\ re.match_here p s' EmptyString = Some g.
Proof.
  induction s as [| c s IH]; simpl.
  - destruct (re.match_here p EmptyString EmptyString) eqn:E; [| discriminate].
    intros [= <-]. exists EmptyString, EmptyString. auto.
  - destruct (re.match_here p (String c s) EmptyString) eqn:E.
    + intros [= <-]. exists EmptyString, (String c s). auto.
    + intros H. destruct (IH H) as (before & s' & -> & Hm).
      exists (String c before), s'. auto.
Qed.

(** Where a pattern "lead N character" matches, the text reads: the lead,
    white space, the digits captured, white space, "character". *)
Lemma number_of_characters_match (lead s g0 g : string) :
  re.match_here (number_of_characters (re.Lit lead)) s g0 = Some g ->
  exists gap1 gap2 rest,
    s = (lead ++ gap1 ++ g ++ gap2 ++ "character" ++ rest)%string
    /\ blank gap1 = true /\ gap1 <> EmptyString
    /\ digits g = true /\ g <> EmptyString
    /\ blank gap2 = true /\ gap2 <> EmptyString.
Proof.
  unfold number_of_characters. cbn [re.match_here].
  destruct (Py.after_prefix lead s) as [r1 |] eqn:E1; [| discriminate].
  apply after_prefix_app in E1. intros H.
  apply longest_first_some in H. destruct H as (n1 & Hn1 & H).
  apply longest_first_some in H. destruct H as (n2 & Hn2 & H).
  apply longest_first_some in H. destruct H as (n3 & Hn3 & H).
  destruct (Py.after_prefix "character" _) as [rest |] eqn:E2;
    [| discriminate].
  apply after_prefix_app in E2. injection H as <-.
  destruct (take_run _ _ _ Hn1) as [Ha1 Hb1].
  destruct (take_run _ _ _ Hn2) as [Ha2 Hb2].
  destruct (take_run _ _ _ Hn3) as [Ha3 Hb3].
  exists (re.take n1 r1), (re.take n3 (re.drop n2 (re.drop n1 r1))), rest.
  rewrite !blank_all_in. unfold digits. repeat split; trivial.
  rewrite E1. f_equal.
  rewrite <- E2, !take_drop. reflexivity.
Qed.

(** ** The interpreter *)

Lemma int_some (g : string) (n : Z) :
  Py.int g = Some n ->
  n = Py.int_from 0 g /\ (String.length g <= Py.int_max_str_digits)%nat.
Proof.
  unfold Py.int.
  destruct (String.length g <=? Py.int_max_str_digits)%nat eqn:E;
    [| discriminate].
  intros [= <-]. split; [reflexivity | now apply Nat.leb_le].
Qed.

Lemma int_none (g : string) :
  Py.int g = None <-> (Py.int_max_str_digits < String.length g)%nat.
Proof.
  unfold Py.int.
  destruct (String.length g <=? Py.int_max_str_digits)%nat eqn:E.
  - apply Nat.leb_le in E. split; [discriminate | lia].
  - apply Nat.leb_gt in E. split; auto.
Qed.

Lemma captured_refused (m : option string) :
  (exists n, captured m = inr n /\ refused m = false)
  \/ (captured m = inl ValueError /\ refused m = true).
Proof.
  destruct m as [g |]; simpl; [| left; eauto].
  unfold Py.int.
  destruct (String.length g <=? Py.int_max_str_digits)%nat; simpl;
    [left; eauto | right; auto].
Qed.

Lemma captured_matched (m : option string) (n : option Z) :
  captured m = inr n -> matched m = match n with Some _ => true | None => false end.
Proof.
  destruct m as [g |]; simpl.
  - destruct (Py.int g); [| discriminate]. now intros [= <-].
  - now intros [= <-].
Qed.

(** The rules that call [int], run from a dictionary without bounds: the
    first conversion that fails ends the run, otherwise the two bounds are
    merged from what was read. *)
Lemma numeric_rules {A} (normalized : string) (p : option bool)
      (w : option Z) (c : option string)
      (k : Inferred.t -> failure + A) :
  and_then (rule3 normalized (Inferred.mk p None None w c))
    (fun d => and_then (rule4 normalized d)
    (fun d => and_then (rule5 normalized d)
    (fun d => and_then (rule6 normalized d) k)))
  = and_then (captured (re.search longer_re normalized))
    (fun n3 => and_then (captured (re.search at_least_re normalized))
    (fun n4 => and_then (captured (re.search shorter_re normalized))
    (fun n5 => and_then (captured (re.search at_most_re normalized))
    (fun n6 => k (Inferred.mk p (merged_min n3 n4) (merged_max n5 n6)
                              w c))))).
Proof.
  unfold rule3, rule4, rule5, rule6, captured.
  destruct (re.search longer_re normalized) as [g3 |];
    [destruct (Py.int g3) |]; simpl; trivial;
    (destruct (re.search at_least_re normalized) as [g4 |];
     [destruct (Py.int g4) |]; simpl; trivial);
    (destruct (re.search shorter_re normalized) as [g5 |];
     [destruct (Py.int g5) |]; simpl; trivial);
    (destruct (re.search at_most_re normalized) as [g6 |];
     [destruct (Py.int g6) |]; simpl; trivial);
    rewrite ?Z.min_id; reflexivity.
Qed.

(** The run of the nine rules: what each field holds depends only on which
    rules fired and on what they captured. *)
Lemma infer_fields (normalized : string) :
  infer normalized
  = and_then (captured (re.search longer_re normalized))
    (fun n3 => and_then (captured (re.search at_least_re normalized))
    (fun n4 => and_then (captured (re.search shorter_re normalized))
    (fun n5 => and_then (captured (re.search at_most_re normalized))
    (fun n6 =>
       inr (Inferred.mk
              (if Py.contains "palindrom" normalized
               then Some true else None)
              (merged_min n3 n4)
              (merged_max n5 n6)
              (if Py.contains "single word" normalized
                  || Py.contains "one word" normalized
               then Some 1 else None)
              (said_character normalized)))))).
Proof.
  unfold infer.
  assert (H12 : rule2 normalized (rule1 normalized Inferred.empty)
                = Inferred.mk
                    (if Py.contains "palindrom" normalized
                     then Some true else None)
                    None None
                    (if Py.contains "single word" normalized
                        || Py.contains "one word" normalized
                     then Some 1 else None)
                    None).
  { unfold rule1, rule2.
    destruct (Py.contains "palindrom" normalized);
      destruct (Py.contains "single word" normalized
                || Py.contains "one word" normalized); reflexivity. }
  rewrite H12, numeric_rules.
  assert (H789 : forall p lo hi w,
             rule9 normalized
               (rule8 normalized
                  (rule7 normalized (Inferred.mk p lo hi w None)))
             = Inferred.mk p lo hi w (said_character normalized)).
  { intros p lo hi w. unfold rule7, rule8, rule9, said_character.
    destruct (re.search letter_re normalized);
      destruct (Py.contains "first vowel" normalized);
      destruct (re.search contains_letter_re normalized); reflexivity. }
  destruct (captured (re.search longer_re normalized)); simpl; trivial.
  destruct (captured (re.search at_least_re normalized)); simpl; trivial.
  destruct (captured (re.search shorter_re normalized)); simpl; trivial.
  destruct (captured (re.search at_most_re normalized)); simpl; trivial.
  now rewrite H789.
Qed.

(** What the run returns when it returns a dictionary. *)
Lemma infer_inr (normalized : string) (inferred : Inferred.t) :
  infer normalized = inr inferred ->
  exists n3 n4 n5 n6,
    captured (re.search longer_re normalized) = inr n3
    /\ captured (re.search at_least_re normalized) = inr n4
    /\ captured (re.search shorter_re normalized) = inr n5
    /\ captured (re.search at_most_re normalized) = inr n6
    /\ inferred
       = Inferred.mk
           (if Py.contains "palindrom" normalized then Some true else None)
           (merged_min n3 n4)
           (merged_max n5 n6)
           (if Py.contains "single word" normalized
               || Py.contains "one word" normalized
            then Some 1 else None)
           (said_character normalized).
Proof.
  rewrite infer_fields.
  destruct (captured (re.search longer_re normalized)) as [| n3];
    [discriminate |].
  destruct (captured (re.search at_least_re normalized)) as [| n4];
    [discriminate |].
  destruct (captured (re.search shorter_re normalized)) as [| n5];
    [discriminate |].
  destruct (captured (re.search at_most_re normalized)) as [| n6];
    [discriminate |].
  simpl. intros [= <-]. exists n3, n4, n5, n6. auto.
Qed.

(** The run fails only with the [ValueError] of [int], exactly when some
    numeric rule captured more digits than [int] converts. *)
Lemma infer_value_error (normalized : string) :
  (forall e, infer normalized = inl e -> e = ValueError)
  /\ (infer normalized = inl ValueError <-> int_refuses normalized = true).
Proof.
  rewrite infer_fields. unfold int_refuses.
  destruct (captured_refused (re.search longer_re normalized))
    as [(n3 & -> & ->) | (-> & ->)];
    [| simpl; split; [now intros e [= <-] | tauto]].
  destruct (captured_refused (re.search at_least_re normalized))
    as [(n4 & -> & ->) | (-> & ->)];
    [| simpl; split; [now intros e [= <-] | tauto]].
  destruct (captured_refused (re.search shorter_re normalized))
    as [(n5 & -> & ->) | (-> & ->)];
    [| simpl; split; [now intros e [= <-] | tauto]].
  destruct (captured_refused (re.search at_most_re normalized))
    as [(n6 & -> & ->) | (-> & ->)];
    [| simpl; split; [now intros e [= <-] | tauto]].
  simpl. split; [discriminate | split; discriminate].
Qed.

Lemma infer_is_empty (normalized : string) (inferred : Inferred.t) :
  infer normalized = inr inferred ->
  Inferred.is_empty inferred
  = forallb (fun r => negb (fires r normalized)) all_rules.
Proof.
  intros H. apply infer_inr in H.
  destruct H as (n3 & n4 & n5 & n6 & H3 & H4 & H5 & H6 & ->).
  apply captured_matched in H3, H4, H5, H6.
  unfold all_rules, forallb, fires, said_character.
  rewrite H3, H4, H5, H6.
  destruct (Py.contains "palindrom" normalized);
    destruct (Py.contains "single word" normalized
              || Py.contains "one word" normalized);
    destruct n3, n4, n5, n6;
    destruct (re.search letter_re normalized);
    destruct (Py.contains "first vowel" normalized);
    destruct (re.search contains_letter_re normalized); reflexivity.
Qed.

Lemma all_rules_complete (r : rule) : In r all_rules.
Proof. destruct r; simpl; tauto. Qed.

Lemma no_rule_fires_iff (normalized : string) (inferred : Inferred.t) :
  infer normalized = inr inferred ->
  (Inferred.is_empty inferred = true
   <-> forall r, fires r normalized = false).
Proof.
  intros H. rewrite (infer_is_empty _ _ H), forallb_forall. split.
  - intros Hall r. apply negb_true_iff, Hall, all_rules_complete.
  - intros Hall r _. apply negb_true_iff, Hall.
Qed.

(** A numeric rule whose conversion fails has fired. *)
Lemma int_refuses_fires (normalized : string) :
  int_refuses normalized = true -> exists r, fires r normalized = true.
Proof.
  unfold int_refuses. intros H.
  repeat (apply orb_true_iff in H; destruct H as [H | H]).
  - exists LongerThan. simpl.
    now destruct (re.search longer_re normalized).
  - exists AtLeast. simpl.
    now destruct (re.search at_least_re normalized).
  - exists ShorterThan. simpl.
    now destruct (re.search shorter_re normalized).
  - exists AtMost. simpl.
    now destruct (re.search at_most_re normalized).
Qed.

(** What [extract] returns when it returns a dictionary. *)
Lemma extract_inr (query : string) (inferred : Inferred.t) :
  extract query = inr inferred ->
  infer (normalize query) = inr inferred
  /\ Inferred.is_empty inferred = false
  /\ normalize query <> EmptyString.
Proof.
  unfold extract.
  destruct (normalize query) as [| c s] eqn:E; [discriminate |].
  destruct (infer (String c s)) as [e | d]; simpl; [discriminate |].
  destruct (Inferred.is_empty d) eqn:F; [discriminate |].
  intros [= <-]. repeat split; [exact F | discriminate].
Qed.

Lemma extract_infer (query : string) (inferred : Inferred.t) :
  normalize query <> EmptyString ->
  infer (normalize query) = inr inferred ->
  Inferred.is_empty inferred = false ->
  extract query = inr inferred.
Proof.
  unfold extract. intros Hne Hinfer Hfield.
  destruct (normalize query) as [| c s]; [congruence |].
  rewrite Hinfer; simpl. now rewrite Hfield.
Qed.

(** The rules only ever infer a single character, so pydantic accepts every
    dictionary they produce. *)
Lemma infer_constraints_hold (normalized : string) (inferred : Inferred.t) :
  infer normalized = inr inferred ->
  AppliedFilters.constraints_hold inferred = true.
Proof.
  intros H. apply infer_inr in H.
  destruct H as (n3 & n4 & n5 & n6 & _ & _ & _ & _ & ->).
  unfold AppliedFilters.constraints_hold, said_character; simpl.
  destruct (re.search contains_letter_re normalized) as [g9 |] eqn:E9.
  - now rewrite (contains_letter_re_one_character _ _ E9).
  - destruct (Py.contains "first vowel" normalized); [reflexivity |].
    destruct (re.search letter_re normalized) as [g7 |] eqn:E7.
    + now rewrite (letter_re_one_character _ _ E7).
    + reflexivity.
Qed.

Lemma init_infer (normalized : string) (inferred : Inferred.t) :
  infer normalized = inr inferred ->
  AppliedFilters.init inferred
  = Some (AppliedFilters.mk
            (Inferred.is_palindrome inferred)
            (Inferred.min_length inferred)
            (Inferred.max_length inferred)
            (Inferred.word_count inferred)
            (Inferred.contains_character inferred)).
Proof.
  intros H. unfold AppliedFilters.init.
  now rewrite (infer_constraints_hold _ _ H).
Qed.

(** [assemble] has no [ParseError] of its own, and calls [int] no more. *)
Lemma assemble_not_parse_error (inferred : Inferred.t) :
  assemble inferred <> inl ParseError
  /\ assemble inferred <> inl ValueError.
Proof.
  unfold assemble.
  destruct (AppliedFilters.init inferred) as [filters |];
    [| split; discriminate].
  destruct (AppliedFilters.min_length filters) as [lo |];
    destruct (AppliedFilters.max_length filters) as [hi |];
    try (split; discriminate).
  destruct (lo >? hi); split; discriminate.
Qed.

Lemma strip_blank (query : string) :
  blank query = true -> Py.strip query = EmptyString.
Proof.
  intros H. unfold Py.strip.
  assert (E : Py.lstrip query = EmptyString).
  { induction query as [| c r IH]; simpl in *; [reflexivity |].
    apply andb_true_iff in H. destruct H as [Hc Hr]. rewrite Hc. auto. }
  now rewrite E.
Qed.

(** C7.  Extraction fails with [ParseError] exactly when the text, trimmed
    and lowercased, is empty or fires none of the nine rules (a text of
    white space only is such a text, and so are "" and "xyz").  In the
    other cases it returns a dictionary with at least one field, unless
    [int] refuses the digits a numeric rule captured: then the
    [ValueError] of [int] leaves the interpreter uncaught, as for "longer
    than N characters" with an N of 4301 digits. *)
Theorem extract_parse_error_iff :
  (forall query,
      extract query = inl ParseError
      <-> (Py.lower (Py.strip query) = EmptyString
           \/ forall r, fires r (Py.lower (Py.strip query)) = false))
  /\ (forall query,
         extract query = inl ValueError
         <-> int_refuses (Py.lower (Py.strip query)) = true)
  /\ (forall query,
         ~ (Py.lower (Py.strip query) = EmptyString
            \/ forall r, fires r (Py.lower (Py.strip query)) = false) ->
         int_refuses (Py.lower (Py.strip query)) = false ->
         exists inferred,
           extract query = inr inferred
           /\ Inferred.is_empty inferred = false)
  /\ (forall query,
         (_parse_natural_language_query query = inl ParseError
          <-> extract query = inl ParseError)
         /\ (_parse_natural_language_query query = inl ValueError
             <-> extract query = inl ValueError))
  /\ (forall query,
         blank query = true ->
         _parse_natural_language_query query = inl ParseError)
  /\ _parse_natural_language_query "" = inl ParseError
  /\ _parse_natural_language_query "xyz" = inl ParseError
  /\ _parse_natural_language_query "  XYZ  " = inl ParseError
  /\ extract "  Palindromes  "
     = inr (Inferred.mk (Some true) None None None None)
  /\ extract ("longer than " ++ nines 4301 ++ " characters")
     = inl ValueError
  /\ _parse_natural_language_query
       ("longer than " ++ nines 4301 ++ " characters")
     = inl ValueError.
Proof.
  assert (Hparse : forall query,
             extract query = inl ParseError
             <-> (Py.lower (Py.strip query) = EmptyString
                  \/ forall r, fires r (Py.lower (Py.strip query)) = false)).
  { intros query. unfold extract, normalize.
    destruct (Py.lower (Py.strip query)) as [| c s] eqn:E.
    - split; auto.
    - destruct (infer (String c s)) as [e | d] eqn:Ei; simpl.
      + destruct (infer_value_error (String c s)) as [Honly Hiff].
        pose proof (Honly _ Ei) as He. subst e.
        split; [discriminate |]. intros [H | H]; [discriminate |].
        destruct (int_refuses_fires (String c s)) as [r Hr];
          [now apply Hiff |].
        rewrite H in Hr. discriminate.
      + rewrite <- (no_rule_fires_iff _ _ Ei).
        destruct (Inferred.is_empty d); split; auto.
        * discriminate.
        * intros [H | H]; discriminate. }
  assert (Hvalue : forall query,
             extract query = inl ValueError
             <-> int_refuses (Py.lower (Py.strip query)) = true).
  { intros query. unfold extract, normalize.
    destruct (Py.lower (Py.strip query)) as [| c s] eqn:E.
    - split; discriminate.
    - destruct (infer_value_error (String c s)) as [Honly Hiff].
      rewrite <- Hiff.
      destruct (infer (String c s)) as [e | d]; simpl; [tauto |].
      destruct (Inferred.is_empty d); split; discriminate. }
  split; [exact Hparse |]. split; [exact Hvalue |].
  split; [| split; [| split]].
  - intros query Hother Hint.
    destruct (extract query) as [e | inferred] eqn:E.
    + exfalso. unfold extract, normalize in E.
      destruct (Py.lower (Py.strip query)) as [| c s] eqn:En;
        [apply Hother; now left |].
      destruct (infer (String c s)) as [e' | d] eqn:Ei; simpl in E.
      * destruct (infer_value_error (String c s)) as [Honly Hiff].
        pose proof (Honly _ Ei) as He. subst. apply Hiff in Ei. congruence.
      * destruct (Inferred.is_empty d) eqn:Ee; [| discriminate].
        apply Hother. right. now apply (no_rule_fires_iff _ _ Ei).
    + exists inferred. split; [reflexivity |].
      now apply extract_inr in E.
  - intros query. unfold _parse_natural_language_query.
    destruct (extract query) as [e | inferred].
    + split; split; intros [= ->]; reflexivity.
    + destruct (assemble_not_parse_error inferred) as [H1 H2].
      split; (split; [intros H; contradiction | discriminate]).
  - intros query Hblank.
    unfold _parse_natural_language_query, extract, normalize.
    now rewrite (strip_blank _ Hblank).
  - repeat split; vm_compute; reflexivity.
Qed.

(** C9.  A filter set the interpreter returns has [is_palindrome] absent or
    [true], never [false]. *)
Theorem parsed_is_palindrome_never_false (query : string)
        (filters : AppliedFilters.t) :
  _parse_natural_language_query query = inr filters ->
  AppliedFilters.is_palindrome filters = None
  \/ AppliedFilters.is_palindrome filters = Some true.
Proof.
  unfold _parse_natural_language_query.
  destruct (extract query) as [e | inferred] eqn:E; [discriminate |].
  apply extract_inr in E. destruct E as (E & _ & _).
  unfold assemble. rewrite (init_infer _ _ E); simpl.
  assert (Hp : Inferred.is_palindrome inferred = None
               \/ Inferred.is_palindrome inferred = Some true).
  { apply infer_inr in E.
    destruct E as (n3 & n4 & n5 & n6 & _ & _ & _ & _ & ->); simpl.
    destruct (Py.contains "palindrom" (normalize query)); auto. }
  destruct (Inferred.min_length _) as [lo |];
    destruct (Inferred.max_length _) as [hi |];
    try (intros [= <-]; exact Hp).
  destruct (lo >? hi); [discriminate | intros [= <-]; exact Hp].
Qed.

Lemma parsed_is_palindrome_never_false_witness :
  AppliedFilters.is_palindrome
    (AppliedFilters.mk (Some true) (Some 5) None None None) = None
  \/ AppliedFilters.is_palindrome
       (AppliedFilters.mk (Some true) (Some 5) None None None) = Some true.
Proof.
  apply (parsed_is_palindrome_never_false
           "strings that are palindromes and at least 5 characters").
  reflexivity.
Defined.

(** ** Merging of the length bounds *)

(** C1, as stated, fails: in "longer than 3 characters, at least 5" the
    number 5 is not followed by "character", so rule 4 does not fire and
    the minimum stays at rule 3's 4. *)
Lemma at_least_needs_character_counterexample :
  ~ (exists inferred,
        extract "longer than 3 characters, at least 5" = inr inferred
        /\ Inferred.min_length inferred = Some 5).
Proof.
  intros (inferred & H & Hmin).
  vm_compute in H. injection H as <-. discriminate.
Qed.

(** C1, amended.  When both phrases are complete, "longer than 3
    characters, at least 5 characters" and the phrase-reversed "at least 5
    characters, longer than 3 characters" both yield [min_length = 5]: the
    minimum is a function of what rule 3 and rule 4 captured, rule 4 merging
    upward over rule 3, whatever the order of the phrases in the text.
    Rule 4 fires only where the text reads "at least", white space, the
    digits, white space and the word "character"; so the two queries that
    end the phrase at "at least 5", and one that goes on with another word
    than "character", fire rule 3 alone and yield 4. *)
Theorem min_length_fixed_rule_order :
  extract "longer than 3 characters, at least 5 characters"
  = inr (Inferred.mk None (Some 5) None None None)
  /\ extract "at least 5 characters, longer than 3 characters"
     = inr (Inferred.mk None (Some 5) None None None)
  /\ (forall normalized inferred,
         infer normalized = inr inferred ->
         exists n3 n4,
           captured (re.search longer_re normalized) = inr n3
           /\ captured (re.search at_least_re normalized) = inr n4
           /\ Inferred.min_length inferred
              = match n3, n4 with
                | Some a, Some b => Some (Z.max b (a + 1))
                | None, Some b => Some (Z.max b 0)
                | Some a, None => Some (a + 1)
                | None, None => None
                end)
  /\ (forall normalized g4,
         re.search at_least_re normalized = Some g4 ->
         exists before gap1 gap2 rest,
           normalized
           = (before ++ "at least" ++ gap1 ++ g4 ++ gap2 ++ "character"
                ++ rest)%string
           /\ blank gap1 = true /\ gap1 <> EmptyString
           /\ digits g4 = true /\ g4 <> EmptyString
           /\ blank gap2 = true /\ gap2 <> EmptyString)
  /\ extract "longer than 3 characters, at least 5"
     = inr (Inferred.mk None (Some 4) None None None)
  /\ extract "at least 5, longer than 3 characters"
     = inr (Inferred.mk None (Some 4) None None None)
  /\ extract "longer than 3 characters, at least 5 letters"
     = inr (Inferred.mk None (Some 4) None None None).
Proof.
  split; [reflexivity |]. split; [reflexivity |].
  split; [| split; [| repeat split; reflexivity]].
  - intros normalized inferred H. apply infer_inr in H.
    destruct H as (n3 & n4 & n5 & n6 & H3 & H4 & _ & _ & ->).
    exists n3, n4. auto.
  - intros normalized g4 H. apply search_some_at in H.
    destruct H as (before & s' & -> & H).
    apply number_of_characters_match in H.
    destruct H as (gap1 & gap2 & rest & -> & H).
    exists before, gap1, gap2, rest. split; [reflexivity | exact H].
Qed.

Lemma min_length_fixed_rule_order_witness :
  exists before gap1 gap2 rest,
    "strings of at least  12 characters"
    = (before ++ "at least" ++ gap1 ++ "12" ++ gap2 ++ "character"
         ++ rest)%string
    /\ blank gap1 = true /\ gap1 <> EmptyString
    /\ digits "12" = true /\ "12" <> EmptyString
    /\ blank gap2 = true /\ gap2 <> EmptyString.
Proof.
  exact (proj1 (proj2 (proj2 (proj2 min_length_fixed_rule_order)))
               "strings of at least  12 characters" "12" eq_refl).
Defined.

Lemma is_empty_max_length (inferred : Inferred.t) (v : Z) :
  Inferred.max_length inferred = Some v ->
  Inferred.is_empty inferred = false.
Proof.
  destruct inferred as [[?|] [?|] [?|] [?|] [?|]]; simpl;
    intros; congruence.
Qed.

(** C8.  When "at most N character" or "no more than N character" is
    found and [int] converts N, rule 6 sets [max_length] to the smaller of
    [N] and the maximum set so far, or to [N] when none is set; a
    dictionary that extraction returns then holds [min(N, M - 1)] when
    "shorter than M character" is found too, and [N] otherwise, and
    extraction returns one when [int] converts every number captured.  When
    N has more than 4300 digits rule 6 sets nothing: the [ValueError] of
    [int] leaves the interpreter, as for "at most N characters" with an N
    of 4301 digits. *)
Theorem at_most_merges_downward (query g6 : string) (N : Z) :
  re.search at_most_re (normalize query) = Some g6 ->
  Py.int g6 = Some N ->
  (forall inferred,
      rule6 (normalize query) inferred
      = inr (Inferred.set_max_length
               (Z.min N
                      (match Inferred.max_length inferred with
                       | Some current => current
                       | None => N
                       end))
               inferred))
  /\ (forall inferred,
         extract query = inr inferred ->
         (forall g5 M,
             re.search shorter_re (normalize query) = Some g5 ->
             Py.int g5 = Some M ->
             Inferred.max_length inferred = Some (Z.min N (M - 1)))
         /\ (re.search shorter_re (normalize query) = None ->
             Inferred.max_length inferred = Some N))
  /\ (int_refuses (normalize query) = false ->
      exists inferred, extract query = inr inferred)
  /\ (forall inferred,
         rule6 ("at most " ++ nines 4301 ++ " characters") inferred
         = inl ValueError)
  /\ _parse_natural_language_query
       ("at most " ++ nines 4301 ++ " characters")
     = inl ValueError.
Proof.
  intros H6 HN.
  assert (Hc6 : captured (re.search at_most_re (normalize query))
                = inr (Some N)).
  { rewrite H6; simpl. now rewrite HN. }
  split; [| split; [| split; [| split]]].
  - intros inferred. unfold rule6. now rewrite H6, HN.
  - intros inferred E. apply extract_inr in E. destruct E as (E & _ & _).
    apply infer_inr in E.
    destruct E as (n3 & n4 & n5 & n6 & _ & _ & H5 & H6' & ->); simpl.
    rewrite Hc6 in H6'. injection H6' as <-.
    split.
    + intros g5 M Hs HM. rewrite Hs in H5; simpl in H5.
      rewrite HM in H5. now injection H5 as <-.
    + intros Hs. rewrite Hs in H5; simpl in H5. now injection H5 as <-.
  - intros Hint.
    destruct (infer (normalize query)) as [e | d] eqn:Ei.
    + destruct (infer_value_error (normalize query)) as [Honly Hiff].
      pose proof (Honly _ Ei) as He. subst. apply Hiff in Ei. congruence.
    + exists d. apply extract_infer; trivial.
      * intros En. rewrite En in H6. discriminate.
      * apply infer_inr in Ei.
        destruct Ei as (n3 & n4 & n5 & n6 & _ & _ & _ & H6' & ->).
        rewrite Hc6 in H6'. injection H6' as <-.
        destruct n5; eapply is_empty_max_length; reflexivity.
  - intros inferred. unfold rule6.
    assert (Hs : re.search at_most_re
                   ("at most " ++ nines 4301 ++ " characters")%string
                 = Some (nines 4301)) by (vm_compute; reflexivity).
    assert (Hi : Py.int (nines 4301) = None) by (vm_compute; reflexivity).
    now rewrite Hs, Hi.
  - vm_compute. reflexivity.
Qed.

Lemma at_most_merges_downward_witness :
  exists inferred,
    extract "at most 10 characters and shorter than 4 characters"
    = inr inferred
    /\ Inferred.max_length inferred = Some 3.
Proof.
  destruct (at_most_merges_downward
              "at most 10 characters and shorter than 4 characters"
              "10" 10 eq_refl eq_refl) as (_ & Hmax & Hsome & _).
  exists (Inferred.mk None None (Some 3) None None).
  split; [reflexivity |].
  exact (proj1 (Hmax _ eq_refl) "4" 4 eq_refl eq_refl).
Defined.

(** ** Assembly *)

(** C3.  When both bounds are present and [min_length > max_length], the
    request fails with [ConflictError] on either entry point: in the
    interpreter for every dictionary the rules produce (and in its assembly
    step for every dictionary that passes the field constraints), and in
    [list_strings] whatever the other parameters are. *)
Theorem conflicting_bounds_rejected (lo hi : Z) (Hconflict : lo > hi) :
  (forall query inferred,
      extract query = inr inferred ->
      Inferred.min_length inferred = Some lo ->
      Inferred.max_length inferred = Some hi ->
      _parse_natural_language_query query = inl ConflictError)
  /\ (forall inferred,
         AppliedFilters.constraints_hold inferred = true ->
         Inferred.min_length inferred = Some lo ->
         Inferred.max_length inferred = Some hi ->
         assemble inferred = inl ConflictError)
  /\ (forall st is_palindrome word_count contains_character,
         list_strings st is_palindrome (Some lo) (Some hi) word_count
                      contains_character
         = inl ConflictError).
Proof.
  assert (Hgt : (lo >? hi) = true).
  { rewrite Z.gtb_ltb. apply Z.ltb_lt. lia. }
  assert (Hassemble : forall inferred,
             AppliedFilters.constraints_hold inferred = true ->
             Inferred.min_length inferred = Some lo ->
             Inferred.max_length inferred = Some hi ->
             assemble inferred = inl ConflictError).
  { intros inferred Hok Hlo Hhi.
    unfold assemble, AppliedFilters.init. rewrite Hok; simpl.
    now rewrite Hlo, Hhi, Hgt. }
  split; [| split; [exact Hassemble |]].
  - intros query inferred E Hlo Hhi.
    unfold _parse_natural_language_query. rewrite E.
    apply Hassemble; trivial.
    apply extract_inr in E. destruct E as (E & _).
    eapply infer_constraints_hold; exact E.
  - intros st is_palindrome word_count contains_character.
    unfold list_strings. now rewrite Hgt.
Qed.

Lemma conflicting_bounds_rejected_witness :
  _parse_natural_language_query
    "at least 5 characters and at most 3 characters"
  = inl ConflictError
  /\ assemble (Inferred.mk None (Some 5) (Some 3) None None)
     = inl ConflictError
  /\ list_strings [] None (Some 5) (Some 3) None None = inl ConflictError.
Proof.
  assert (H : 5 > 3) by lia.
  destruct (conflicting_bounds_rejected 5 3 H) as (Htext & Hmap & Hdirect).
  split; [| split].
  - apply (Htext _ (Inferred.mk None (Some 5) (Some 3) None None));
      reflexivity.
  - apply Hmap; reflexivity.
  - apply Hdirect.
Defined.

(** C2.  The interpreter accepts a negative length bound: "shorter than 0
    characters" is interpreted as [max_length = -1], which the filter set
    takes, its integer fields carrying no constraint.  The same value sent
    as a query parameter of [list_strings] is refused by the parameter's
    [ge=0]. *)
Theorem shorter_than_zero_accepted :
  _parse_natural_language_query "shorter than 0 characters"
  = inr (AppliedFilters.mk None None (Some (-1)) None None)
  /\ assemble (Inferred.mk None None (Some (-1)) None None)
     = inr (AppliedFilters.mk None None (Some (-1)) None None)
  /\ query_parameters_ok (Inferred.mk None None (Some (-1)) None None)
     = false.
Proof. repeat split. Qed.

(** ** The endpoints *)

(** C10.  In a successful response of either endpoint, [count] is the
    number of records in [data]. *)
Theorem count_is_number_of_records (st : store) :
  (forall is_palindrome min_length max_length word_count contains_character
          response,
      list_strings st is_palindrome min_length max_length word_count
                   contains_character = inr response ->
      StringsListResponse.count response
      = Z.of_nat (List.length (StringsListResponse.data response)))
  /\ (forall query response,
         filter_by_natural_language st query = inr response ->
         NaturalLanguageFilterResponse.count response
         = Z.of_nat
             (List.length (NaturalLanguageFilterResponse.data response))).
Proof.
  split.
  - intros p lo hi w c response. unfold list_strings.
    destruct (match lo, hi with
              | Some lo', Some hi' => lo' >? hi'
              | _, _ => false
              end); [discriminate |].
    destruct (AppliedFilters.init _); [| discriminate].
    now intros [= <-].
  - intros query response. unfold filter_by_natural_language.
    destruct (_parse_natural_language_query query); [discriminate |].
    now intros [= <-].
Qed.

Lemma count_is_number_of_records_witness :
  StringsListResponse.count
    (StringsListResponse.mk [civic] 1
       (Some (AppliedFilters.mk (Some true) None None None None)))
  = Z.of_nat 1
  /\ NaturalLanguageFilterResponse.count
       (NaturalLanguageFilterResponse.mk [civic] 1
          (NaturalLanguageInterpretation.mk "palindromes"
             (AppliedFilters.mk (Some true) None None None None)))
     = Z.of_nat 1.
Proof.
  split.
  - apply (proj1 (count_is_number_of_records example_store)
                 (Some true) None None None None).
    reflexivity.
  - apply (proj2 (count_is_number_of_records example_store) "palindromes").
    reflexivity.
Defined.

(** * Further properties of the code *)

(** ** Texts *)

Lemma append_nil_r (s : string) : (s ++ EmptyString)%string = s.
Proof. induction s as [| c s IH]; simpl; [reflexivity | now rewrite IH]. Qed.

Lemma append_assoc (a b c : string) :
  ((a ++ b) ++ c = a ++ (b ++ c))%string.
Proof. induction a as [| x a IH]; simpl; [reflexivity | now rewrite IH]. Qed.

(** Facts about single characters, checked on all 256 of them. *)
Ltac all_characters c :=
  destruct c as [[] [] [] [] [] [] [] []]; vm_compute; reflexivity.

Lemma isspace_lower_char (c : ascii) :
  Py.isspace (Py.lower_char c) = Py.isspace c.
Proof. all_characters c. Qed.

Lemma lower_char_idempotent (c : ascii) :
  Py.lower_char (Py.lower_char c) = Py.lower_char c.
Proof. all_characters c. Qed.

Lemma sharp_s_lower_char (c : ascii) :
  (Py.ord (Py.lower_char c) =? 223)%N = (Py.ord c =? 223)%N.
Proof. all_characters c. Qed.

Lemma rstrip_nonspace (c : ascii) (r : string) :
  Py.isspace c = false ->
  Py.rstrip (String c r) = String c (Py.rstrip r).
Proof. intros H. simpl. rewrite H. now destruct (Py.rstrip r). Qed.

Lemma rstrip_app_space (c : ascii) (t : string) :
  Py.isspace c = true ->
  Py.rstrip (t ++ String c EmptyString) = Py.rstrip t.
Proof.
  intros H. induction t as [| x t IH]; simpl.
  - now rewrite H.
  - now rewrite IH.
Qed.

Lemma lstrip_rstrip (s : string) :
  Py.lstrip (Py.rstrip s) = Py.rstrip (Py.lstrip s).
Proof.
  induction s as [| c r IH].
  - reflexivity.
  - destruct (Py.isspace c) eqn:E.
    + simpl. rewrite E. rewrite <- IH.
      destruct (Py.rstrip r) as [| x r'] eqn:Er; simpl.
      * reflexivity.
      * now rewrite E.
    + rewrite rstrip_nonspace by exact E. simpl. rewrite E.
      now rewrite rstrip_nonspace by exact E.
Qed.

Lemma lstrip_idempotent (s : string) :
  Py.lstrip (Py.lstrip s) = Py.lstrip s.
Proof.
  induction s as [| c r IH]; simpl; [reflexivity |].
  destruct (Py.isspace c) eqn:E; [exact IH |]. simpl. now rewrite E.
Qed.

Lemma rstrip_idempotent (s : string) :
  Py.rstrip (Py.rstrip s) = Py.rstrip s.
Proof.
  induction s as [| c r IH]; simpl; [reflexivity |].
  destruct (Py.rstrip r) as [| x r'] eqn:Er.
  - destruct (Py.isspace c) eqn:E; simpl; [reflexivity | now rewrite E].
  - assert (Hstep : forall t,
               Py.rstrip (String c t)
               = match Py.rstrip t with
                 | EmptyString =>
                     if Py.isspace c then EmptyString
                     else String c EmptyString
                 | String y t' => String c (String y t')
                 end) by reflexivity.
    now rewrite Hstep, IH.
Qed.

Lemma strip_idempotent (s : string) : Py.strip (Py.strip s) = Py.strip s.
Proof.
  unfold Py.strip.
  now rewrite lstrip_rstrip, lstrip_idempotent, rstrip_idempotent.
Qed.

Lemma lstrip_lower (s : string) :
  Py.lstrip (Py.lower s) = Py.lower (Py.lstrip s).
Proof.
  induction s as [| c r IH]; simpl; [reflexivity |].
  rewrite isspace_lower_char. now destruct (Py.isspace c).
Qed.

Lemma rstrip_lower (s : string) :
  Py.rstrip (Py.lower s) = Py.lower (Py.rstrip s).
Proof.
  induction s as [| c r IH]; simpl; [reflexivity |].
  rewrite IH, isspace_lower_char.
  destruct (Py.rstrip r); simpl; [now destruct (Py.isspace c) | reflexivity].
Qed.

Lemma strip_lower (s : string) :
  Py.strip (Py.lower s) = Py.lower (Py.strip s).
Proof. unfold Py.strip. now rewrite lstrip_lower, rstrip_lower. Qed.

Lemma lower_idempotent (s : string) : Py.lower (Py.lower s) = Py.lower s.
Proof.
  induction s as [| c r IH]; simpl; [reflexivity |].
  now rewrite lower_char_idempotent, IH.
Qed.

Lemma casefold_lower (s : string) : Py.casefold (Py.lower s) = Py.casefold s.
Proof.
  induction s as [| c r IH]; simpl; [reflexivity |].
  rewrite sharp_s_lower_char, lower_char_idempotent, IH. reflexivity.
Qed.

Lemma lstrip_blank_app (pre s : string) :
  blank pre = true -> Py.lstrip (pre ++ s) = Py.lstrip s.
Proof.
  induction pre as [| c pre IH]; simpl; [reflexivity |].
  intros H. apply andb_true_iff in H. destruct H as [Hc Hpre].
  rewrite Hc. auto.
Qed.

Lemma rstrip_app_blank (post s : string) :
  blank post = true -> Py.rstrip (s ++ post) = Py.rstrip s.
Proof.
  revert s. induction post as [| c post IH]; intros s; simpl.
  - now rewrite append_nil_r.
  - intros H. apply andb_true_iff in H. destruct H as [Hc Hpost].
    change (String c post) with (String c EmptyString ++ post)%string.
    rewrite <- append_assoc, IH by exact Hpost.
    now apply rstrip_app_space.
Qed.

Lemma strip_padded (pre post s : string) :
  blank pre = true -> blank post = true ->
  Py.strip (pre ++ s ++ post) = Py.strip s.
Proof.
  intros Hpre Hpost. unfold Py.strip.
  rewrite lstrip_blank_app by exact Hpre.
  rewrite <- lstrip_rstrip, rstrip_app_blank by exact Hpost.
  apply lstrip_rstrip.
Qed.

(** ** [utils.py] *)

(** X1.  [is_palindrome] ignores white space around the text and the case
    of its letters. *)
Theorem is_palindrome_ignores_padding_and_case (pre post value : string) :
  blank pre = true ->
  blank post = true ->
  utils.is_palindrome (pre ++ value ++ post) = utils.is_palindrome value
  /\ utils.is_palindrome (Py.lower value) = utils.is_palindrome value
  /\ utils.is_palindrome (pre ++ Py.lower value ++ post)
     = utils.is_palindrome value.
Proof.
  intros Hpre Hpost. unfold utils.is_palindrome.
  rewrite !strip_padded by assumption.
  rewrite strip_lower, casefold_lower. auto.
Qed.

Lemma is_palindrome_ignores_padding_and_case_witness :
  utils.is_palindrome "  Racecar  " = utils.is_palindrome "Racecar"
  /\ utils.is_palindrome "racecar" = utils.is_palindrome "Racecar"
  /\ utils.is_palindrome "  racecar  " = utils.is_palindrome "Racecar".
Proof.
  apply (is_palindrome_ignores_padding_and_case "  " "  " "Racecar");
    reflexivity.
Defined.

Lemma split_from_nil (s cur : string) :
  Py.split_from cur s = [] <-> cur = EmptyString /\ blank s = true.
Proof.
  revert cur. induction s as [| c s IH]; intros cur; simpl.
  - destruct cur; split; auto; try discriminate. now intros [? _].
  - destruct (Py.isspace c); simpl.
    + destruct cur.
      * rewrite IH. tauto.
      * split; [discriminate | now intros [? _]].
    + rewrite IH. split; [| now intros [_ ?]].
      intros [H _]. destruct cur; discriminate.
Qed.

Lemma split_from_blank (sep s : string) :
  blank sep = true ->
  Py.split_from EmptyString (sep ++ s) = Py.split_from EmptyString s.
Proof.
  induction sep as [| c sep IH]; simpl; [reflexivity |].
  intros H. apply andb_true_iff in H. destruct H as [Hc Hsep].
  rewrite Hc. auto.
Qed.

Lemma split_from_joined (a sep b cur : string) :
  blank sep = true -> sep <> EmptyString ->
  Py.split_from cur (a ++ sep ++ b) = Py.split_from cur a ++ Py.split b.
Proof.
  intros Hsep Hne. revert cur.
  induction a as [| c a IH]; intros cur; simpl.
  - destruct sep as [| x sep]; [congruence |]. simpl in Hsep |- *.
    apply andb_true_iff in Hsep. destruct Hsep as [Hx Hsep].
    rewrite Hx, split_from_blank by exact Hsep.
    now destruct cur.
  - destruct (Py.isspace c).
    + destruct cur; [apply IH |]. simpl. now rewrite IH.
    + apply IH.
Qed.

(** X3.  [word_count] is zero exactly for a text of white space only (the
    empty text among them). *)
Theorem word_count_zero_iff_blank (value : string) :
  utils.word_count value = 0 <-> blank value = true.
Proof.
  unfold utils.word_count, Py.split.
  destruct (Py.split_from EmptyString value) as [| w ws] eqn:E.
  - split; [| reflexivity]. intros _. now apply split_from_nil in E.
  - split; [simpl; lia |].
    intros H.
    assert (Hnil : Py.split_from EmptyString value = [])
      by (apply split_from_nil; auto).
    congruence.
Qed.

(** X4.  Joining two texts with white space adds their word counts. *)
Theorem word_count_joined (a sep b : string) :
  blank sep = true ->
  sep <> EmptyString ->
  utils.word_count (a ++ sep ++ b) = utils.word_count a + utils.word_count b.
Proof.
  intros Hsep Hne. unfold utils.word_count, Py.split.
  rewrite split_from_joined by assumption.
  rewrite length_app. unfold Py.split. lia.
Qed.

Lemma word_count_joined_witness :
  utils.word_count "hello   big world"
  = utils.word_count "hello" + utils.word_count "big world".
Proof.
  apply (word_count_joined "hello" "   " "big world");
    [reflexivity | discriminate].
Defined.

Lemma frequency_count_up (d c : ascii) (m : list (ascii * Z)) :
  frequency (utils.count_up d m) c
  = if Ascii.eqb c d
    then Some (match frequency m c with Some n => n + 1 | None => 1 end)
    else frequency m c.
Proof.
  induction m as [| [e n] m IH]; simpl.
  - now destruct (Ascii.eqb c d).
  - destruct (Ascii.eqb d e) eqn:Ede; simpl.
    + apply Ascii.eqb_eq in Ede. subst e.
      now destruct (Ascii.eqb c d).
    + destruct (Ascii.eqb c e) eqn:Ece.
      * apply Ascii.eqb_eq in Ece. subst e.
        rewrite Ascii.eqb_sym in Ede. now rewrite Ede.
      * exact IH.
Qed.

Lemma frequency_fold (c : ascii) (l : list ascii) :
  forall m,
    frequency (fold_left (fun m c => utils.count_up c m) l m) c
    = match frequency m c, count_occ ascii_dec l c with
      | None, O => None
      | None, S k => Some (Z.of_nat (S k))
      | Some n, k => Some (n + Z.of_nat k)
      end.
Proof.
  induction l as [| d l IH]; intros m; simpl.
  - destruct (frequency m c); [f_equal; lia | reflexivity].
  - rewrite IH, frequency_count_up.
    destruct (ascii_dec d c) as [-> | Hne].
    + rewrite Ascii.eqb_refl.
      destruct (frequency m c); f_equal; lia.
    + assert (E : Ascii.eqb c d = false) by (apply Ascii.eqb_neq; congruence).
      now rewrite E.
Qed.

(** X5.  The frequency map holds, for every character of the text, the
    number of times it occurs, and nothing for a character that does not
    occur. *)
Theorem character_frequency_map_counts (value : string) (c : ascii) :
  frequency (utils.character_frequency_map value) c
  = match occurrences c value with
    | O => None
    | S k => Some (Z.of_nat (S k))
    end.
Proof.
  unfold utils.character_frequency_map, occurrences.
  now rewrite frequency_fold.
Qed.

Lemma frequency_keys (m : list (ascii * Z)) (c : ascii) :
  In c (map fst m) <-> frequency m c <> None.
Proof.
  induction m as [| [e n] m IH]; simpl.
  - split; [contradiction | congruence].
  - destruct (Ascii.eqb c e) eqn:E.
    + apply Ascii.eqb_eq in E. subst. split; [discriminate | auto].
    + apply Ascii.eqb_neq in E. rewrite <- IH.
      split; [intros [H | H]; [congruence | exact H] | auto].
Qed.

Lemma keys_count_up (d : ascii) (m : list (ascii * Z)) :
  (In d (map fst m) -> map fst (utils.count_up d m) = map fst m)
  /\ (~ In d (map fst m) -> map fst (utils.count_up d m) = map fst m ++ [d]).
Proof.
  induction m as [| [e n] m [IHin IHout]]; simpl.
  - split; [contradiction | reflexivity].
  - destruct (Ascii.eqb d e) eqn:E; simpl.
    + apply Ascii.eqb_eq in E. subst. split; [reflexivity | tauto].
    + apply Ascii.eqb_neq in E. split.
      * intros [H | H]; [congruence | now rewrite IHin].
      * intros H. rewrite IHout; tauto.
Qed.

Lemma NoDup_snoc {A} (l : list A) (a : A) :
  NoDup l -> ~ In a l -> NoDup (l ++ [a]).
Proof.
  intros Hl Ha. induction Hl as [| x l Hx Hl IH]; simpl.
  - constructor; [auto | constructor].
  - constructor.
    + rewrite in_app_iff. simpl. intros [H | [H | []]]; [tauto |].
      subst. apply Ha. now left.
    + apply IH. intros H. apply Ha. now right.
Qed.

Lemma frequency_map_invariants (l : list ascii) :
  forall m,
    NoDup (map fst m) ->
    let m' := fold_left (fun m c => utils.count_up c m) l m in
    NoDup (map fst m')
    /\ total m' = total m + Z.of_nat (List.length l).
Proof.
  induction l as [| d l IH]; intros m Hm; simpl.
  - split; [exact Hm | lia].
  - assert (Hkeys : NoDup (map fst (utils.count_up d m))).
    { destruct (in_dec ascii_dec d (map fst m)) as [Hin | Hout].
      - now rewrite (proj1 (keys_count_up d m) Hin).
      - rewrite (proj2 (keys_count_up d m) Hout). now apply NoDup_snoc. }
    assert (Htotal : total (utils.count_up d m) = total m + 1).
    { clear. induction m as [| [e n] m IHm]; simpl; [reflexivity |].
      destruct (Ascii.eqb d e); simpl; lia. }
    destruct (IH _ Hkeys) as [H1 H2]. split; [exact H1 |].
    rewrite H2, Htotal. lia.
Qed.

Lemma length_list_ascii_of_string (s : string) :
  List.length (list_ascii_of_string s) = String.length s.
Proof. induction s as [| c s IH]; simpl; [reflexivity | now rewrite IH]. Qed.

Lemma frequency_present (value : string) (c : ascii) :
  frequency (utils.character_frequency_map value) c <> None
  <-> In c (list_ascii_of_string value).
Proof.
  unfold utils.character_frequency_map. rewrite frequency_fold; simpl.
  rewrite (count_occ_In ascii_dec).
  destruct (count_occ ascii_dec (list_ascii_of_string value) c).
  - split; [congruence | lia].
  - split; [lia | discriminate].
Qed.

(** X6.  The frequency map has one entry for each distinct character of
    the text, [unique_characters] of them, and its counts add up to
    [length]; there are at most as many distinct characters as
    characters. *)
Theorem character_frequency_map_shape (value : string) :
  NoDup (map fst (utils.character_frequency_map value))
  /\ (forall c, In c (map fst (utils.character_frequency_map value))
                <-> In c (list_ascii_of_string value))
  /\ Z.of_nat (List.length (utils.character_frequency_map value))
     = utils.unique_characters value
  /\ total (utils.character_frequency_map value) = utils.length value
  /\ 0 <= utils.unique_characters value <= utils.length value.
Proof.
  pose proof (frequency_map_invariants (list_ascii_of_string value) []
                (NoDup_nil _)) as [Hnodup Htotal].
  fold (utils.character_frequency_map value) in Hnodup, Htotal.
  assert (Hkeys : forall c,
             In c (map fst (utils.character_frequency_map value))
             <-> In c (list_ascii_of_string value)).
  { intros c. rewrite frequency_keys. apply frequency_present. }
  split; [exact Hnodup |]. split; [exact Hkeys |].
  split; [| split].
  - unfold utils.unique_characters. f_equal.
    rewrite <- (length_map fst). apply Nat.le_antisymm.
    + apply NoDup_incl_length; [exact Hnodup |].
      intros c Hc. apply nodup_In, Hkeys, Hc.
    + apply NoDup_incl_length; [apply NoDup_nodup |].
      intros c Hc. apply Hkeys. now apply nodup_In in Hc.
  - rewrite Htotal. unfold utils.length.
    now rewrite length_list_ascii_of_string.
  - unfold utils.unique_characters, utils.length.
    rewrite <- length_list_ascii_of_string. split; [lia |].
    apply Nat2Z.inj_le, NoDup_incl_length; [apply NoDup_nodup |].
    intros c Hc. now apply nodup_In in Hc.
Qed.

(** ** The evaluator, further *)

Lemma filter_none {A} (f : A -> bool) (l : list A) :
  (forall x, In x l -> f x = false) -> filter f l = [].
Proof.
  induction l as [| x l IH]; simpl; intros H; [reflexivity |].
  rewrite (H x) by now left. apply IH. intros y Hy. apply H. now right.
Qed.

Lemma filter_filter {A} (f g : A -> bool) (l : list A) :
  filter f (filter g l) = filter (fun x => g x && f x) l.
Proof.
  induction l as [| x l IH]; simpl; [reflexivity |].
  destruct (g x); simpl; [destruct (f x) |]; now rewrite IH.
Qed.

(** X7.  A filter set whose minimum exceeds its maximum matches no record
    at all. *)
Theorem conflicting_bounds_match_nothing
        (records : list StringResource.t) (lo hi : Z)
        (is_palindrome : option bool) (word_count : option Z)
        (contains_character : option string) :
  lo > hi ->
  _apply_filters records
    (AppliedFilters.mk is_palindrome (Some lo) (Some hi) word_count
                       contains_character)
  = [].
Proof.
  intros Hgt. rewrite apply_filters_filter. apply filter_none.
  intros record _. rewrite keeps_satisfiesb. unfold satisfiesb; simpl.
  destruct (lo <=? _) eqn:E1; destruct (_ <=? hi) eqn:E2;
    rewrite ?andb_false_r, ?andb_false_l; simpl; try reflexivity.
  apply Z.leb_le in E1, E2. lia.
Qed.

Lemma conflicting_bounds_match_nothing_witness :
  _apply_filters [civic; hello]
    (AppliedFilters.mk None (Some 5) (Some 3) None None) = [].
Proof.
  apply conflicting_bounds_match_nothing. lia.
Defined.

(** X8.  Evaluation works record by record: it distributes over the
    concatenation of two sequences, returns nothing for no records, and
    never returns more records than it was given. *)
Theorem apply_filters_app (filters : AppliedFilters.t)
        (first second : list StringResource.t) :
  _apply_filters (first ++ second) filters
  = _apply_filters first filters ++ _apply_filters second filters
  /\ _apply_filters [] filters = []
  /\ (List.length (_apply_filters first filters) <= List.length first)%nat.
Proof.
  rewrite !apply_filters_filter. split; [apply filter_app |].
  split; [reflexivity | apply filter_length_le].
Qed.

(** X9.  Filtering twice by the same filter set changes nothing more, and
    two filter sets can be applied in either order. *)
Theorem apply_filters_idempotent_commutative
        (f g : AppliedFilters.t) (records : list StringResource.t) :
  _apply_filters (_apply_filters records f) f = _apply_filters records f
  /\ _apply_filters (_apply_filters records f) g
     = _apply_filters (_apply_filters records g) f.
Proof.
  rewrite !apply_filters_filter, !filter_filter. split.
  - apply filter_ext. intros r. now destruct (keeps f r).
  - apply filter_ext. intros r. apply andb_comm.
Qed.

(** X10.  A filter set with several fields selects what its fields select
    one after the other: evaluation is the composition of the five
    single-field evaluations. *)
Theorem apply_filters_field_by_field
        (records : list StringResource.t)
        (is_palindrome : option bool)
        (min_length max_length word_count : option Z)
        (contains_character : option string) :
  _apply_filters records
    (AppliedFilters.mk is_palindrome min_length max_length word_count
                       contains_character)
  = _apply_filters
      (_apply_filters
         (_apply_filters
            (_apply_filters
               (_apply_filters records
                  (AppliedFilters.mk is_palindrome None None None None))
               (AppliedFilters.mk None min_length None None None))
            (AppliedFilters.mk None None max_length None None))
         (AppliedFilters.mk None None None word_count None))
      (AppliedFilters.mk None None None None contains_character).
Proof.
  rewrite !apply_filters_filter, !filter_filter.
  apply filter_ext. intros r. rewrite !keeps_satisfiesb.
  unfold satisfiesb; simpl.
  destruct (present is_palindrome _), (present min_length _),
    (present max_length _), (present word_count _),
    (present contains_character _); reflexivity.
Qed.

(** ** The interpreter, further *)

(** A pattern that ends in [([a-z])] captures one character of the
    class. *)
Lemma match_here_group_one_class (cls : ascii -> bool) (p : re.pattern) :
  forall s g g',
    re.match_here (p ++ [re.GroupOne cls]) s g = Some g' ->
    exists a, g' = String a EmptyString /\ cls a = true.
Proof.
  induction p as [| i p IH]; intros s g g'; simpl.
  - destruct s as [| c r]; [discriminate |].
    destruct (cls c) eqn:E; [| discriminate]. intros [= <-]. eauto.
  - destruct i as [l | ls | l | c | c | c].
    + destruct (Py.after_prefix l s); [apply IH | discriminate].
    + intros H. apply first_choice_some in H. destruct H as (l & _ & H).
      destruct (Py.after_prefix l s); [eapply IH; eassumption | discriminate].
    + destruct (Py.after_prefix l s) as [r |].
      * destruct (re.match_here (p ++ [re.GroupOne cls]) r g) eqn:E.
        -- intros [= <-]. eapply IH; eassumption.
        -- apply IH.
      * apply IH.
    + intros H. apply longest_first_some in H. destruct H as (m & _ & H).
      eapply IH; eassumption.
    + intros H. apply longest_first_some in H. destruct H as (m & _ & H).
      eapply IH; eassumption.
    + destruct s as [| a r]; [discriminate |].
      destruct (c a); [apply IH | discriminate].
Qed.

Lemma letter_re_class (s g : string) :
  re.search letter_re s = Some g ->
  exists a, g = String a EmptyString /\ Py.is_a_z a = true.
Proof.
  intros H. apply search_some in H. destruct H as (s' & H).
  exact (match_here_group_one_class Py.is_a_z
           [re.Alt ["letter"; "character"]; re.Plus Py.isspace] _ _ _ H).
Qed.

Lemma contains_letter_re_class (s g : string) :
  re.search contains_letter_re s = Some g ->
  exists a, g = String a EmptyString /\ Py.is_a_z a = true.
Proof.
  intros H. apply search_some in H. destruct H as (s' & H).
  exact (match_here_group_one_class Py.is_a_z
           [re.Lit "contain"; re.Opt "ing"; re.Lit " the letter";
            re.Plus Py.isspace] _ _ _ H).
Qed.

Lemma int_from_nonneg (s : string) :
  forall acc, 0 <= acc -> 0 <= Py.int_from acc s.
Proof.
  induction s as [| c s IH]; intros acc Hacc; cbn [Py.int_from];
    [exact Hacc |].
  apply IH. unfold Py.digit_value.
  pose proof (N2Z.is_nonneg (Py.ord c - 48)) as Hd.
  revert Hd. generalize (Z.of_N (Py.ord c - 48)). intros d Hd. lia.
Qed.

Lemma captured_nonneg (m : option string) (n : Z) :
  captured m = inr (Some n) -> 0 <= n.
Proof.
  destruct m as [g |]; simpl; [| discriminate].
  destruct (Py.int g) as [v |] eqn:E; [| discriminate].
  intros [= <-]. apply int_some in E. destruct E as [-> _].
  apply int_from_nonneg. lia.
Qed.

(** What the interpreter returns when it returns a filter set: the fields
    of the dictionary the rules made, which is not empty, passes the field
    constraints and has no conflict. *)
Lemma parse_inr (query : string) (filters : AppliedFilters.t) :
  _parse_natural_language_query query = inr filters ->
  exists inferred,
    infer (normalize query) = inr inferred
    /\ filters = AppliedFilters.mk
                   (Inferred.is_palindrome inferred)
                   (Inferred.min_length inferred)
                   (Inferred.max_length inferred)
                   (Inferred.word_count inferred)
                   (Inferred.contains_character inferred)
    /\ Inferred.is_empty inferred = false
    /\ match Inferred.min_length inferred, Inferred.max_length inferred with
       | Some lo, Some hi => (lo >? hi) = false
       | _, _ => True
       end.
Proof.
  unfold _parse_natural_language_query.
  destruct (extract query) as [e | inferred] eqn:E; [discriminate |].
  apply extract_inr in E. destruct E as (E & Hfield & _).
  unfold assemble. rewrite (init_infer _ _ E); simpl.
  intros H. exists inferred. split; [exact E |].
  destruct (Inferred.min_length inferred) as [lo |];
    destruct (Inferred.max_length inferred) as [hi |];
    try (injection H as <-; auto).
  destruct (lo >? hi); [discriminate | injection H as <-; auto].
Qed.

(** X11.  The interpreter never fails with [ValidationError]: the handler
    of pydantic's error in [_parse_natural_language_query] is never
    entered, as the rules only infer values the filter set accepts. *)
Theorem parse_never_validation_error (query : string) :
  _parse_natural_language_query query <> inl ValidationError.
Proof.
  unfold _parse_natural_language_query.
  destruct (extract query) as [e | inferred] eqn:E.
  - unfold extract in E.
    destruct (normalize query) as [| c s]; [now inversion E |].
    destruct (infer (String c s)) as [e' | d] eqn:Ei; simpl in E.
    + destruct (infer_value_error (String c s)) as [Honly _].
      pose proof (Honly _ Ei) as He. subst. inversion E. discriminate.
    + destruct (Inferred.is_empty d); inversion E. discriminate.
  - apply extract_inr in E. destruct E as (E & _ & _).
    unfold assemble. rewrite (init_infer _ _ E); simpl.
    destruct (Inferred.min_length _) as [lo |];
      destruct (Inferred.max_length _) as [hi |]; try discriminate.
    destruct (lo >? hi); discriminate.
Qed.

(** X12.  In a filter set the interpreter returns, a minimum length is at
    least 0, a maximum length at least -1, a word count is 1, and the
    character to contain is one lowercase letter a-z. *)
Theorem parsed_values_in_range (query : string)
        (filters : AppliedFilters.t) :
  _parse_natural_language_query query = inr filters ->
  (forall n, AppliedFilters.min_length filters = Some n -> 0 <= n)
  /\ (forall n, AppliedFilters.max_length filters = Some n -> -1 <= n)
  /\ (forall n, AppliedFilters.word_count filters = Some n -> n = 1)
  /\ (forall c, AppliedFilters.contains_character filters = Some c ->
                exists a, c = String a EmptyString /\ Py.is_a_z a = true).
Proof.
  intros H. apply parse_inr in H.
  destruct H as (inferred & E & -> & _ & _). apply infer_inr in E.
  destruct E as (n3 & n4 & n5 & n6 & H3 & H4 & H5 & H6 & ->); simpl.
  set (n := normalize query).
  repeat split.
  - intros v.
    destruct n3 as [a |]; destruct n4 as [b |]; simpl; intros [= <-];
      try pose proof (captured_nonneg _ _ H3);
      try pose proof (captured_nonneg _ _ H4); lia.
  - intros v.
    destruct n5 as [a |]; destruct n6 as [b |]; simpl; intros [= <-];
      try pose proof (captured_nonneg _ _ H5);
      try pose proof (captured_nonneg _ _ H6); lia.
  - intros v. destruct (_ || _); now intros [= <-].
  - intros c. unfold said_character.
    destruct (re.search contains_letter_re n) as [g9 |] eqn:E9.
    + intros [= <-]. eapply contains_letter_re_class; eassumption.
    + destruct (Py.contains "first vowel" n).
      * intros [= <-]. exists "a"%char. now split.
      * intros E7. eapply letter_re_class; eassumption.
Qed.

Lemma parsed_values_in_range_witness :
  exists a, "z" = String a EmptyString /\ Py.is_a_z a = true.
Proof.
  refine (proj2 (proj2 (proj2
    (parsed_values_in_range
       "Single word strings shorter than 0 characters with the letter Z"
       (AppliedFilters.mk None None (Some (-1)) (Some 1) (Some "z"))
       eq_refl))) "z" eq_refl).
Defined.

Lemma normalize_padded (pre post query : string) :
  blank pre = true -> blank post = true ->
  normalize (pre ++ query ++ post) = normalize query.
Proof. intros. unfold normalize. now rewrite strip_padded. Qed.

Lemma normalize_lower (query : string) :
  normalize (Py.lower query) = normalize query.
Proof. unfold normalize. now rewrite strip_lower, lower_idempotent. Qed.

(** X13.  The interpretation of a query does not depend on white space
    around it nor on the case of its letters. *)
Theorem interpretation_ignores_padding_and_case (pre post query : string) :
  blank pre = true ->
  blank post = true ->
  _parse_natural_language_query (pre ++ query ++ post)
  = _parse_natural_language_query query
  /\ _parse_natural_language_query (Py.lower query)
     = _parse_natural_language_query query.
Proof.
  intros Hpre Hpost.
  unfold _parse_natural_language_query, extract.
  now rewrite normalize_padded, normalize_lower.
Qed.

Lemma interpretation_ignores_padding_and_case_witness :
  _parse_natural_language_query "  Palindromes At Least 5 Characters "
  = _parse_natural_language_query "Palindromes At Least 5 Characters"
  /\ _parse_natural_language_query "palindromes at least 5 characters"
     = _parse_natural_language_query "Palindromes At Least 5 Characters".
Proof.
  apply (interpretation_ignores_padding_and_case
           "  " " " "Palindromes At Least 5 Characters"); reflexivity.
Defined.

Lemma any_set_not_empty (d : Inferred.t) :
  AppliedFilters.any_set
    (AppliedFilters.mk (Inferred.is_palindrome d) (Inferred.min_length d)
       (Inferred.max_length d) (Inferred.word_count d)
       (Inferred.contains_character d))
  = negb (Inferred.is_empty d).
Proof. now destruct d as [[?|] [?|] [?|] [?|] [?|]]. Qed.

(** X14.  The two endpoints agree: when a query is interpreted as a filter
    set, [list_strings] called with the fields of that filter set succeeds
    and returns the same records and count as [filter_by_natural_language],
    and echoes the filter set. *)
Theorem natural_language_agrees_with_structured
        (st : store) (query : string) (filters : AppliedFilters.t) :
  _parse_natural_language_query query = inr filters ->
  exists response,
    filter_by_natural_language st query = inr response
    /\ NaturalLanguageInterpretation.parsed_filters
         (NaturalLanguageFilterResponse.interpreted_query response)
       = filters
    /\ NaturalLanguageInterpretation.original
         (NaturalLanguageFilterResponse.interpreted_query response)
       = query
    /\ list_strings st
         (AppliedFilters.is_palindrome filters)
         (AppliedFilters.min_length filters)
         (AppliedFilters.max_length filters)
         (AppliedFilters.word_count filters)
         (AppliedFilters.contains_character filters)
       = inr (StringsListResponse.mk
                (NaturalLanguageFilterResponse.data response)
                (NaturalLanguageFilterResponse.count response)
                (Some filters)).
Proof.
  intros H. unfold filter_by_natural_language. rewrite H.
  eexists. split; [reflexivity |]. simpl. split; [reflexivity |].
  split; [reflexivity |].
  apply parse_inr in H.
  destruct H as (inferred & E & -> & Hfield & Hbounds). simpl.
  unfold list_strings.
  assert (Hno : match Inferred.min_length inferred,
                      Inferred.max_length inferred with
                | Some lo, Some hi => lo >? hi
                | _, _ => false
                end = false).
  { destruct (Inferred.min_length _); [| reflexivity].
    destruct (Inferred.max_length _); [exact Hbounds | reflexivity]. }
  rewrite Hno.
  unfold AppliedFilters.init.
  pose proof (infer_constraints_hold _ _ E) as Hok.
  unfold AppliedFilters.constraints_hold in Hok |- *. simpl.
  rewrite Hok. simpl.
  unfold _parsed_filters_or_none.
  now rewrite any_set_not_empty, Hfield.
Qed.

Lemma natural_language_agrees_with_structured_witness :
  exists response,
    filter_by_natural_language example_store "palindromes" = inr response
    /\ NaturalLanguageInterpretation.parsed_filters
         (NaturalLanguageFilterResponse.interpreted_query response)
       = AppliedFilters.mk (Some true) None None None None
    /\ NaturalLanguageInterpretation.original
         (NaturalLanguageFilterResponse.interpreted_query response)
       = "palindromes"
    /\ list_strings example_store (Some true) None None None None
       = inr (StringsListResponse.mk
                (NaturalLanguageFilterResponse.data response)
                (NaturalLanguageFilterResponse.count response)
                (Some (AppliedFilters.mk (Some true) None None None None))).
Proof.
  exact (natural_language_agrees_with_structured example_store
           "palindromes"
           (AppliedFilters.mk (Some true) None None None None) eq_refl).
Defined.

(** ** [list_strings] *)

Lemma filter_all {A} (f : A -> bool) (l : list A) :
  (forall x, In x l -> f x = true) -> filter f l = l.
Proof.
  induction l as [| x l IH]; simpl; intros H; [reflexivity |].
  rewrite (H x) by now left. f_equal. apply IH. intros y Hy. apply H.
  now right.
Qed.

(** X15.  With parameters that meet their declared constraints,
    [list_strings] fails only when both bounds are given and the minimum
    exceeds the maximum, with [ConflictError]; otherwise it answers. *)
Theorem list_strings_fails_only_on_conflict
        (st : store) (is_palindrome : option bool)
        (min_length max_length word_count : option Z)
        (contains_character : option string) :
  query_parameters_ok
    (Inferred.mk is_palindrome min_length max_length word_count
                 contains_character) = true ->
  (exists lo hi,
      min_length = Some lo /\ max_length = Some hi /\ lo > hi
      /\ list_strings st is_palindrome min_length max_length word_count
                      contains_character = inl ConflictError)
  \/ (match min_length, max_length with
      | Some lo, Some hi => lo <= hi
      | _, _ => True
      end
      /\ exists response,
        list_strings st is_palindrome min_length max_length word_count
                     contains_character = inr response).
Proof.
  unfold query_parameters_ok; simpl. intros Hok.
  apply andb_true_iff in Hok. destruct Hok as [_ Hc].
  assert (Hinit : AppliedFilters.constraints_hold
                    (Inferred.mk is_palindrome min_length max_length
                                 word_count contains_character) = true)
    by exact Hc.
  unfold list_strings, AppliedFilters.init. rewrite Hinit.
  destruct min_length as [lo |]; [| right; eauto].
  destruct max_length as [hi |]; [| right; eauto].
  destruct (lo >? hi) eqn:E.
  - left. exists lo, hi. repeat split; trivial.
    rewrite Z.gtb_ltb in E. apply Z.ltb_lt in E. lia.
  - right. split; [| eauto].
    rewrite Z.gtb_ltb in E. apply Z.ltb_ge in E. exact E.
Qed.

Lemma list_strings_fails_only_on_conflict_witness :
  (exists lo hi,
      Some 2 = Some lo /\ Some 7 = Some hi /\ lo > hi
      /\ list_strings example_store None (Some 2) (Some 7) None (Some "c")
         = inl ConflictError)
  \/ (2 <= 7
      /\ exists response,
        list_strings example_store None (Some 2) (Some 7) None (Some "c")
        = inr response).
Proof.
  apply (list_strings_fails_only_on_conflict
           example_store None (Some 2) (Some 7) None (Some "c")).
  reflexivity.
Defined.

(** X16.  A successful [list_strings] returns the stored records the
    parameters select, in the order of the store, and echoes the
    parameters as the filter set, or [None] when none was given; without
    parameters it returns the whole store. *)
Theorem list_strings_echoes_parameters
        (st : store) (is_palindrome : option bool)
        (min_length max_length word_count : option Z)
        (contains_character : option string)
        (response : StringsListResponse.t) :
  list_strings st is_palindrome min_length max_length word_count
               contains_character = inr response ->
  let filters := AppliedFilters.mk is_palindrome min_length max_length
                                   word_count contains_character in
  StringsListResponse.data response = filter (satisfiesb filters) (values st)
  /\ StringsListResponse.filters_applied response
     = match is_palindrome, min_length, max_length, word_count,
             contains_character with
       | None, None, None, None, None => None
       | _, _, _, _, _ => Some filters
       end
  /\ list_strings st None None None None None
     = inr (StringsListResponse.mk
              (values st) (Z.of_nat (List.length (values st))) None).
Proof.
  unfold list_strings, AppliedFilters.init; simpl.
  destruct (match min_length, max_length with
            | Some lo, Some hi => lo >? hi
            | _, _ => false
            end); [discriminate |].
  destruct (AppliedFilters.constraints_hold _); [| discriminate].
  intros [= <-]; simpl. split; [| split].
  - rewrite apply_filters_filter. apply filter_ext.
    intros r. apply keeps_satisfiesb.
  - unfold _parsed_filters_or_none; simpl.
    destruct is_palindrome, min_length, max_length, word_count,
      contains_character; reflexivity.
  - unfold _parsed_filters_or_none, len; simpl.
    rewrite apply_filters_filter, filter_all; [reflexivity |].
    reflexivity.
Qed.

Lemma list_strings_echoes_parameters_witness :
  [civic] = filter (satisfiesb
                      (AppliedFilters.mk (Some true) None None None None))
                   (values example_store)
  /\ Some (AppliedFilters.mk (Some true) None None None None)
     = Some (AppliedFilters.mk (Some true) None None None None)
  /\ list_strings example_store None None None None None
     = inr (StringsListResponse.mk
              (values example_store)
              (Z.of_nat (List.length (values example_store))) None).
Proof.
  exact (list_strings_echoes_parameters
           example_store (Some true) None None None None
           (StringsListResponse.mk [civic] 1
              (Some (AppliedFilters.mk (Some true) None None None None)))
           eq_refl).
Defined.

(** ** The store *)

Lemma get_In (st : store) (key : string) (r : StringResource.t) :
  get st key = Some r -> In (key, r) st.
Proof.
  induction st as [| [k x] st IH]; simpl; [discriminate |].
  destruct (String.eqb k key) eqn:E.
  - apply String.eqb_eq in E. subst. intros [= <-]. now left.
  - intros H. right. now apply IH.
Qed.

Lemma get_none_keys (st : store) (key : string) :
  get st key = None <-> ~ In key (map fst st).
Proof.
  induction st as [| [k x] st IH]; simpl.
  - tauto.
  - destruct (String.eqb k key) eqn:E.
    + apply String.eqb_eq in E. subst. split; [discriminate | tauto].
    + apply String.eqb_neq in E. rewrite IH. tauto.
Qed.

Lemma get_snoc (st : store) (key k : string) (r : StringResource.t) :
  get (st ++ [(key, r)]) k
  = match get st k with
    | Some x => Some x
    | None => if String.eqb key k then Some r else None
    end.
Proof.
  induction st as [| [k' x] st IH]; simpl; [reflexivity |].
  now destruct (String.eqb k' k).
Qed.

Lemma get_pop (st : store) (key k : string) :
  get (pop st key) k = if String.eqb k key then None else get st k.
Proof.
  unfold pop.
  induction st as [| [k' x] st IH]; simpl.
  - now destruct (String.eqb k key).
  - destruct (String.eqb k' key) eqn:E1; simpl.
    + rewrite IH. apply String.eqb_eq in E1. subst k'.
      destruct (String.eqb k key) eqn:E2; [reflexivity |].
      rewrite String.eqb_sym in E2. now rewrite E2.
    + rewrite IH.
      destruct (String.eqb k' k) eqn:E3; [| reflexivity].
      apply String.eqb_eq in E3. subst k'.
      now rewrite E1.
Qed.

(** X17.  [store_string] is idempotent: storing a text again returns the
    resource of the first call, whatever the clock and the timestamp
    passed, and leaves the store as the first call left it. *)
Theorem store_string_idempotent
        (sha256_hash : string -> string) (st : store) (value : string)
        (utcnow utcnow' : Z) (created_at created_at' : option Z) :
  store_string sha256_hash utcnow'
    (fst (store_string sha256_hash utcnow st value created_at))
    value created_at'
  = store_string sha256_hash utcnow st value created_at.
Proof.
  unfold store_string.
  destruct (get st value) as [existing |] eqn:E; simpl.
  - now rewrite E.
  - now rewrite get_snoc, E, String.eqb_refl.
Qed.

(** X18.  A string that was created can be read back: after a successful
    [create_string], [get_string] with the text returns the very resource
    that was returned, the text was not in the store before, and every
    other text reads as before. *)
Theorem create_then_get
        (sha256_hash : string -> string) (utcnow : Z) (st st' : store)
        (body : payload) (resource : StringResource.t) :
  create_string sha256_hash utcnow st body = inr (st', resource) ->
  payload_get body "value" = Some (JString (StringResource.value resource))
  /\ get_string st (StringResource.value resource) = inl NotFound
  /\ get_string st' (StringResource.value resource) = inr resource
  /\ (forall other, other <> StringResource.value resource ->
                    get_string st' other = get_string st other).
Proof.
  unfold create_string, has_key, store_string.
  destruct (payload_get body "value") as [[| b | n | text | l | l] |];
    try discriminate.
  destruct (get st text) eqn:E; [discriminate |].
  intros [= <- <-]; simpl. unfold get_string.
  rewrite E, !get_snoc, E, String.eqb_refl. repeat split.
  intros other Hother. rewrite get_snoc.
  destruct (get st other); [reflexivity |].
  destruct (String.eqb text other) eqn:E'; [| reflexivity].
  apply String.eqb_eq in E'. congruence.
Qed.

Lemma create_then_get_witness :
  payload_get [("value", JString "level")] "value"
  = Some (JString "level")
  /\ get_string example_store "level" = inl NotFound
  /\ get_string
       (example_store
          ++ [("level", _build_resource example_digest 7 "level" None)])
       "level"
     = inr (_build_resource example_digest 7 "level" None)
  /\ (forall other,
         other <> "level" ->
         get_string
           (example_store
              ++ [("level", _build_resource example_digest 7 "level" None)])
           other
         = get_string example_store other).
Proof.
  exact (create_then_get example_digest 7 example_store
           (example_store
              ++ [("level", _build_resource example_digest 7 "level" None)])
           [("value", JString "level")]
           (_build_resource example_digest 7 "level" None) eq_refl).
Defined.

(** X19.  A string cannot be created twice: after a successful
    [create_string], the same body is refused with [AlreadyExists]
    (status 409). *)
Theorem create_twice_conflicts
        (sha256_hash : string -> string) (utcnow utcnow' : Z)
        (st st' : store) (body : payload) (resource : StringResource.t) :
  create_string sha256_hash utcnow st body = inr (st', resource) ->
  create_string sha256_hash utcnow' st' body = inl AlreadyExists
  /\ http_status AlreadyExists = 409.
Proof.
  unfold create_string, has_key, store_string.
  destruct (payload_get body "value") as [[| b | n | text | l | l] |];
    try discriminate.
  destruct (get st text) eqn:E; [discriminate |].
  intros [= <- <-].
  now rewrite get_snoc, E, String.eqb_refl.
Qed.

Lemma create_twice_conflicts_witness :
  create_string example_digest 8
    (example_store
       ++ [("level", _build_resource example_digest 7 "level" None)])
    [("value", JString "level")]
  = inl AlreadyExists
  /\ http_status AlreadyExists = 409.
Proof.
  exact (create_twice_conflicts example_digest 7 8 example_store _
           [("value", JString "level")] _ eq_refl).
Defined.

(** X20.  [delete_string] fails with [NotFound] exactly for a text that
    [get_string] does not find; after it succeeds the text is gone, a
    second deletion fails, and every other text reads as before. *)
Theorem delete_then_get (st : store) (string_value : string) :
  (delete_string st string_value = inl NotFound
   <-> get_string st string_value = inl NotFound)
  /\ (forall st',
         delete_string st string_value = inr st' ->
         get_string st' string_value = inl NotFound
         /\ delete_string st' string_value = inl NotFound
         /\ (forall other, other <> string_value ->
                           get_string st' other = get_string st other)).
Proof.
  unfold delete_string, get_string, has_key. split.
  - destruct (get st string_value); simpl; split;
      (discriminate || reflexivity).
  - intros st'. destruct (get st string_value); simpl; [| discriminate].
    intros [= <-]. rewrite get_pop, String.eqb_refl; simpl.
    repeat split.
    intros other Hother. rewrite get_pop.
    destruct (String.eqb other string_value) eqn:E; [| reflexivity].
    apply String.eqb_eq in E. congruence.
Qed.

Lemma delete_then_get_witness :
  get_string [("hello", hello)] "civic" = inl NotFound
  /\ delete_string [("hello", hello)] "civic" = inl NotFound
  /\ (forall other,
         other <> "civic" ->
         get_string [("hello", hello)] other
         = get_string example_store other).
Proof.
  exact (proj2 (delete_then_get example_store "civic")
               [("hello", hello)] eq_refl).
Defined.

(** X21.  A deleted string can be created again: the new resource is built
    afresh and goes to the end of the store. *)
Theorem delete_then_create
        (sha256_hash : string -> string) (utcnow : Z) (st st' : store)
        (string_value : string) :
  delete_string st string_value = inr st' ->
  create_string sha256_hash utcnow st' [("value", JString string_value)]
  = inr (st' ++ [(string_value,
                  _build_resource sha256_hash utcnow string_value None)],
         _build_resource sha256_hash utcnow string_value None).
Proof.
  unfold delete_string, has_key.
  destruct (get st string_value); simpl; [| discriminate].
  intros [= <-].
  unfold create_string, has_key, store_string; simpl.
  now rewrite get_pop, String.eqb_refl.
Qed.

Lemma delete_then_create_witness :
  create_string example_digest 9 [("hello", hello)]
    [("value", JString "civic")]
  = inr ([("hello", hello)]
           ++ [("civic", _build_resource example_digest 9 "civic" None)],
         _build_resource example_digest 9 "civic" None).
Proof.
  exact (delete_then_create example_digest 9 example_store
           [("hello", hello)] "civic" eq_refl).
Defined.

(** ** The store as a dictionary of built resources *)

Lemma built_build_resource (sha256_hash : string -> string) (utcnow : Z)
      (value : string) (created_at : option Z) :
  built sha256_hash
        (value, _build_resource sha256_hash utcnow value created_at).
Proof. unfold built; simpl. auto. Qed.

Lemma keys_filter (f : string * StringResource.t -> bool) (st : store) :
  NoDup (map fst st) -> NoDup (map fst (filter f st)).
Proof.
  induction st as [| kv st IH]; simpl; intros H; [constructor |].
  inversion H as [| k ks Hk Hks]; subst.
  destruct (f kv); simpl; [| auto].
  constructor; [| auto].
  intros Hin. apply Hk.
  apply in_map_iff in Hin. destruct Hin as (x & <- & Hx).
  apply filter_In in Hx. apply in_map, Hx.
Qed.

Lemma store_ok_snoc (sha256_hash : string -> string) (st : store)
      (kv : string * StringResource.t) :
  store_ok sha256_hash st -> get st (fst kv) = None ->
  built sha256_hash kv -> store_ok sha256_hash (st ++ [kv]).
Proof.
  intros [Hkeys Hall] Hget Hkv. split.
  - rewrite map_app. simpl. apply NoDup_snoc; [exact Hkeys |].
    now apply get_none_keys.
  - apply Forall_app. split; [exact Hall | now constructor].
Qed.

Lemma store_ok_pop (sha256_hash : string -> string) (st : store)
      (key : string) :
  store_ok sha256_hash st -> store_ok sha256_hash (pop st key).
Proof.
  intros [Hkeys Hall]. split.
  - now apply keys_filter.
  - rewrite Forall_forall in *. intros kv Hkv.
    apply filter_In in Hkv. apply Hall, Hkv.
Qed.

(** X22.  The endpoints keep the store a dictionary of built resources:
    starting from the empty store, after any [create_string],
    [delete_string] or [store_string] no text is stored twice and every
    text is bound to the resource built from it. *)
Theorem store_ok_preserved (sha256_hash : string -> string) (st : store) :
  store_ok sha256_hash [] /\
  (store_ok sha256_hash st ->
   (forall utcnow body st' resource,
       create_string sha256_hash utcnow st body = inr (st', resource) ->
       store_ok sha256_hash st')
   /\ (forall string_value st',
          delete_string st string_value = inr st' ->
          store_ok sha256_hash st')
   /\ (forall utcnow value created_at,
          store_ok sha256_hash
            (fst (store_string sha256_hash utcnow st value created_at)))).
Proof.
  split; [split; constructor |].
  intros Hok.
  assert (Hstore : forall utcnow value created_at,
             store_ok sha256_hash
               (fst (store_string sha256_hash utcnow st value created_at))).
  { intros utcnow value created_at. unfold store_string.
    destruct (get st value) eqn:E; simpl; [exact Hok |].
    apply store_ok_snoc; [exact Hok | exact E |].
    apply built_build_resource. }
  split; [| split; [| exact Hstore]].
  - intros utcnow body st' resource. unfold create_string.
    destruct (payload_get body "value") as [[| b | n | text | l | l] |];
      try discriminate.
    destruct (has_key st text); [discriminate |].
    intros [= H]. specialize (Hstore utcnow text None).
    now rewrite H in Hstore.
  - intros string_value st'. unfold delete_string.
    destruct (negb (has_key st string_value)); [discriminate |].
    intros [= <-]. now apply store_ok_pop.
Qed.

Lemma store_ok_preserved_witness :
  store_ok example_digest
    (fst (store_string example_digest 3 [] "civic" None)).
Proof.
  destruct (store_ok_preserved example_digest []) as [Hempty Hkeep].
  destruct (Hkeep Hempty) as (_ & _ & Hstore).
  exact (Hstore 3 "civic" None).
Defined.

Lemma store_ok_values (sha256_hash : string -> string) (st : store)
      (r : StringResource.t) :
  store_ok sha256_hash st -> In r (values st) ->
  In (StringResource.value r, r) st
  /\ StringResource.properties r
     = _build_properties sha256_hash (StringResource.value r).
Proof.
  intros [_ Hall] Hin. unfold values in Hin.
  apply in_map_iff in Hin. destruct Hin as ([k x] & <- & Hkx).
  rewrite Forall_forall in Hall.
  destruct (Hall _ Hkx) as (Hv & _ & Hp). simpl in *.
  rewrite Hv. split; [exact Hkx | now rewrite Hp].
Qed.

(** X23.  In such a store, what [get_string] returns for a text is the
    resource of that text: its value is the text, its identifier the digest
    of the text, and its properties those computed from the text. *)
Theorem get_string_returns_built
        (sha256_hash : string -> string) (st : store)
        (string_value : string) (resource : StringResource.t) :
  store_ok sha256_hash st ->
  get_string st string_value = inr resource ->
  StringResource.value resource = string_value
  /\ StringResource.id resource = sha256_hash string_value
  /\ StringResource.properties resource
     = StringProperties.mk
         (utils.length string_value)
         (utils.is_palindrome string_value)
         (utils.unique_characters string_value)
         (utils.word_count string_value)
         (sha256_hash string_value)
         (utils.character_frequency_map string_value).
Proof.
  intros [_ Hall]. unfold get_string.
  destruct (get st string_value) as [r |] eqn:E; [| discriminate].
  intros [= <-]. apply get_In in E.
  rewrite Forall_forall in Hall. exact (Hall _ E).
Qed.

Lemma get_string_returns_built_witness :
  StringResource.value (_build_resource example_digest 3 "civic" None)
  = "civic"
  /\ StringResource.id (_build_resource example_digest 3 "civic" None)
     = example_digest "civic"
  /\ StringResource.properties
       (_build_resource example_digest 3 "civic" None)
     = StringProperties.mk
         (utils.length "civic") (utils.is_palindrome "civic")
         (utils.unique_characters "civic") (utils.word_count "civic")
         (example_digest "civic") (utils.character_frequency_map "civic").
Proof.
  apply (get_string_returns_built example_digest
           [("civic", _build_resource example_digest 3 "civic" None)]
           "civic").
  - split; [repeat constructor; simpl; tauto |].
    repeat constructor.
  - reflexivity.
Defined.

(** X24.  A created string shows at the end of the listing: after a
    successful [create_string], [list_strings] without parameters returns
    the records listed before followed by the new resource, and the count
    is one more. *)
Theorem create_then_list
        (sha256_hash : string -> string) (utcnow : Z) (st st' : store)
        (body : payload) (resource : StringResource.t) :
  create_string sha256_hash utcnow st body = inr (st', resource) ->
  list_strings st' None None None None None
  = inr (StringsListResponse.mk
           (values st ++ [resource])
           (Z.of_nat (List.length (values st)) + 1)
           None).
Proof.
  unfold create_string, has_key, store_string.
  destruct (payload_get body "value") as [[| b | n | text | l | l] |];
    try discriminate.
  destruct (get st text) eqn:E; [discriminate |].
  intros [= <- <-].
  unfold list_strings, _parsed_filters_or_none, len; simpl.
  rewrite apply_filters_filter, filter_all by reflexivity.
  unfold values. rewrite map_app, length_app; simpl.
  do 2 f_equal. lia.
Qed.

Lemma create_then_list_witness :
  list_strings
    (example_store
       ++ [("level", _build_resource example_digest 7 "level" None)])
    None None None None None
  = inr (StringsListResponse.mk
           (values example_store
              ++ [_build_resource example_digest 7 "level" None])
           (Z.of_nat (List.length (values example_store)) + 1)
           None).
Proof.
  exact (create_then_list example_digest 7 example_store _
           [("value", JString "level")] _ eq_refl).
Defined.

Lemma pop_length (st : store) (key : string) (r : StringResource.t) :
  NoDup (map fst st) -> get st key = Some r ->
  (List.length (pop st key) + 1 = List.length st)%nat.
Proof.
  unfold pop.
  induction st as [| [k x] st IH]; simpl; [discriminate |].
  intros Hnd. inversion Hnd as [| k' ks Hk Hks]; subst.
  destruct (String.eqb k key) eqn:E; simpl.
  - intros _. apply String.eqb_eq in E. subst k.
    rewrite filter_all; [lia |].
    intros [k' x'] Hin; simpl.
    apply negb_true_iff, String.eqb_neq. intros ->.
    apply Hk. now apply (in_map fst) in Hin.
  - intros Hget. specialize (IH Hks Hget). lia.
Qed.

(** X25.  A deleted string leaves the listing, alone: in a store kept by
    the endpoints, after a successful [delete_string] the records are those
    listed before whose text is not the deleted one, in the same order, and
    there is exactly one less. *)
Theorem delete_then_list
        (sha256_hash : string -> string) (st st' : store)
        (string_value : string) :
  store_ok sha256_hash st ->
  delete_string st string_value = inr st' ->
  values st'
  = filter (fun r => negb (String.eqb (StringResource.value r) string_value))
           (values st)
  /\ (List.length (values st') + 1 = List.length (values st))%nat.
Proof.
  intros [Hkeys Hall]. unfold delete_string, has_key.
  destruct (get st string_value) as [r |] eqn:E; simpl; [| discriminate].
  intros [= <-]. split.
  - clear E Hkeys. unfold values, pop.
    induction st as [| [k x] st IH]; simpl; [reflexivity |].
    inversion Hall as [| kv l Hkv Hl]; subst.
    destruct Hkv as (Hv & _). simpl in Hv. rewrite Hv.
    destruct (String.eqb k string_value); simpl; now rewrite IH.
  - unfold values. rewrite !length_map. eapply pop_length; eassumption.
Qed.

Lemma delete_then_list_witness :
  values [("hello", _build_resource example_digest 1 "hello" None)]
  = filter (fun r => negb (String.eqb (StringResource.value r) "civic"))
           (values [("civic", _build_resource example_digest 0 "civic" None);
                    ("hello", _build_resource example_digest 1 "hello" None)])
  /\ (List.length
        (values [("hello", _build_resource example_digest 1 "hello" None)])
      + 1
      = List.length
          (values [("civic", _build_resource example_digest 0 "civic" None);
                   ("hello", _build_resource example_digest 1 "hello" None)]))%nat.
Proof.
  apply (delete_then_list example_digest
           [("civic", _build_resource example_digest 0 "civic" None);
            ("hello", _build_resource example_digest 1 "hello" None)]
           [("hello", _build_resource example_digest 1 "hello" None)]
           "civic").
  - split.
    + repeat constructor; simpl; intuition discriminate.
    + repeat constructor.
  - reflexivity.
Defined.

Lemma length_nonneg (value : string) : 0 <= utils.length value.
Proof. unfold utils.length. lia. Qed.

(** X26.  In a store kept by the endpoints a negative maximum length
    matches nothing; so the query "shorter than 0 characters", which the
    interpreter accepts, is answered with no record and a count of 0. *)
Theorem negative_max_length_matches_nothing
        (sha256_hash : string -> string) (st : store) (n : Z)
        (is_palindrome : option bool) (min_length word_count : option Z)
        (contains_character : option string) :
  store_ok sha256_hash st ->
  n < 0 ->
  _apply_filters (values st)
    (AppliedFilters.mk is_palindrome min_length (Some n) word_count
                       contains_character) = []
  /\ filter_by_natural_language st "shorter than 0 characters"
     = inr (NaturalLanguageFilterResponse.mk [] 0
              (NaturalLanguageInterpretation.mk
                 "shorter than 0 characters"
                 (AppliedFilters.mk None None (Some (-1)) None None))).
Proof.
  intros Hok Hn.
  assert (Hnone : forall m p lo w c,
             m < 0 ->
             _apply_filters (values st)
               (AppliedFilters.mk p lo (Some m) w c) = []).
  { intros m p lo w c Hm. rewrite apply_filters_filter. apply filter_none.
    intros r Hr. rewrite keeps_satisfiesb. unfold satisfiesb; simpl.
    destruct (store_ok_values _ _ _ Hok Hr) as [_ ->]; simpl.
    pose proof (length_nonneg (StringResource.value r)).
    assert (E : (utils.length (StringResource.value r) <=? m) = false)
      by (apply Z.leb_gt; lia).
    rewrite E. now rewrite !andb_false_r. }
  split; [now apply Hnone |].
  unfold filter_by_natural_language.
  assert (Hparse : _parse_natural_language_query "shorter than 0 characters"
                   = inr (AppliedFilters.mk None None (Some (-1)) None None))
    by reflexivity.
  rewrite Hparse. cbv beta iota zeta.
  now rewrite Hnone by lia.
Qed.

Lemma negative_max_length_matches_nothing_witness :
  _apply_filters
    (values [("civic", _build_resource example_digest 0 "civic" None)])
    (AppliedFilters.mk None None (Some (-1)) None None) = []
  /\ filter_by_natural_language
       [("civic", _build_resource example_digest 0 "civic" None)]
       "shorter than 0 characters"
     = inr (NaturalLanguageFilterResponse.mk [] 0
              (NaturalLanguageInterpretation.mk
                 "shorter than 0 characters"
                 (AppliedFilters.mk None None (Some (-1)) None None))).
Proof.
  apply (negative_max_length_matches_nothing example_digest
           [("civic", _build_resource example_digest 0 "civic" None)]).
  - split; repeat constructor. simpl. tauto.
  - lia.
Defined.

(** X27.  In a store kept by the endpoints, what [list_strings] returns is
    decided by the texts themselves: a record is returned iff it is stored
    and its text passes each given parameter, the palindrome test, the
    bounds on the number of characters, the number of words and the
    occurrence of the character, as [utils] compute them on the text. *)
Theorem list_strings_selects_by_text
        (sha256_hash : string -> string) (st : store)
        (is_palindrome : option bool)
        (min_length max_length word_count : option Z)
        (contains_character : option string)
        (response : StringsListResponse.t) :
  store_ok sha256_hash st ->
  list_strings st is_palindrome min_length max_length word_count
               contains_character = inr response ->
  forall r,
    In r (StringsListResponse.data response)
    <-> In r (values st)
        /\ (forall b, is_palindrome = Some b ->
                      utils.is_palindrome (StringResource.value r) = b)
        /\ (forall n, min_length = Some n ->
                      n <= utils.length (StringResource.value r))
        /\ (forall n, max_length = Some n ->
                      utils.length (StringResource.value r) <= n)
        /\ (forall n, word_count = Some n ->
                      utils.word_count (StringResource.value r) = n)
        /\ (forall c, contains_character = Some c ->
                      Py.contains (Py.lower c)
                        (Py.lower (StringResource.value r)) = true).
Proof.
  intros Hok. unfold list_strings, AppliedFilters.init.
  destruct (match min_length, max_length with
            | Some lo, Some hi => lo >? hi
            | _, _ => false
            end); [discriminate |].
  destruct (AppliedFilters.constraints_hold _); [| discriminate].
  intros [= <-] r; simpl.
  rewrite apply_filters_filter, filter_In, keeps_satisfiesb, satisfiesb_spec.
  unfold satisfies; simpl.
  split; intros [Hin H]; (split; [exact Hin |]);
    destruct (store_ok_values _ _ _ Hok Hin) as [_ Hp];
    rewrite Hp in *; exact H.
Qed.

Lemma list_strings_selects_by_text_witness :
  In (_build_resource example_digest 0 "civic" None)
     [_build_resource example_digest 0 "civic" None].
Proof.
  apply (list_strings_selects_by_text example_digest
           [("civic", _build_resource example_digest 0 "civic" None)]
           (Some true) (Some 5) None None (Some "C")
           (StringsListResponse.mk
              [_build_resource example_digest 0 "civic" None] 1
              (Some (AppliedFilters.mk (Some true) (Some 5) None None
                                       (Some "C"))))).
  - split; repeat constructor. simpl. tauto.
  - reflexivity.
  - split; [now left |].
    repeat split; intros v [= <-]; vm_compute; reflexivity || discriminate.
Defined.

(** ** The routes *)

Lemma at_end_cases (s : string) :
  at_end s = true ->
  s = EmptyString \/ s = String "010"%char EmptyString.
Proof.
  destruct s as [| c [| d s]]; simpl; auto; [| discriminate].
  intros H. right. apply N.eqb_eq in H.
  rewrite <- (ascii_N_embedding c). unfold Py.ord in H. now rewrite H.
Qed.

Lemma static_path_match (s path : string) (params : list string) :
  path_match [Static s] path [] = Some params ->
  path = s \/ path = (s ++ String "010"%char EmptyString)%string.
Proof.
  simpl. destruct (Py.after_prefix s path) as [rest |] eqn:E;
    [| discriminate].
  destruct (at_end rest) eqn:Eend; [| discriminate]. intros _.
  apply after_prefix_app in E. subst.
  destruct (at_end_cases _ Eend) as [-> | ->]; [left | right].
  - apply append_nil_r.
  - reflexivity.
Qed.

(** X28.  No request reaches [filter_by_natural_language]: whatever the
    method and the path, the routes hand the request to another handler or
    to none, because the route of [get_string], registered first, takes
    every GET under /strings/; GET /strings/filter-by-natural-language goes
    to [get_string] with that last segment as the text. *)
Theorem filter_by_natural_language_unreachable :
  (forall m path params,
      dispatch m path <> Some (to_filter_by_natural_language, params))
  /\ dispatch GET "/strings/filter-by-natural-language"
     = Some (to_get_string, ["filter-by-natural-language"]).
Proof.
  split; [| reflexivity].
  intros m path params. unfold dispatch, routes.
  destruct m; cbn [dispatch_in method_eqb];
    repeat match goal with
           | |- context [path_match ?ps path []] =>
               destruct (path_match ps path []) eqn:?
           end;
    try congruence.
  match goal with
  | H : path_match [Static "/strings/filter-by-natural-language"] _ _
        = Some _ |- _ =>
      apply static_path_match in H; destruct H as [-> | ->]
  end;
    match goal with
    | H : path_match [Static "/strings/"; Param] _ _ = None |- _ =>
        vm_compute in H; discriminate H
    end.
Qed.
